(** * Korean acrostic-poem generator (app.py): model and verified properties

    The program is a single Streamlit page.  A Python [str] is a sequence
    of Unicode code points, so it is modelled as a list of code points in
    [Z]; [len] is [length].  The page's rendering calls and the call to the
    remote generation API are effects: they are recorded, in program order,
    in a trace carried by a small writer monad that also carries Python's
    two ways of leaving a function early (a raised [Exception], and
    Streamlit's script-control signals of [st.stop] and [st.rerun]). *)

From Stdlib Require Import ZArith List Bool Lia String Ascii.
Import ListNotations.

Local Open Scope Z_scope.

(** ** Python strings *)

Module Py.

Definition char := Z.
Definition str := list char.

(** *** Source literals

    The literals of app.py are written here as they are in the source and
    decoded from the bytes of this file (UTF-8) to code points; the only
    escape the source's literals use is backslash-n. *)

Fixpoint bytes_of (s : string) : list Z :=
  match s with
  | EmptyString => []
  | String a r => Z.of_N (N_of_ascii a) :: bytes_of r
  end.

Fixpoint unescape (bs : list Z) : list Z :=
  match bs with
  | 92 :: 110 :: r => 10 :: unescape r
  | b :: r => b :: unescape r
  | [] => []
  end.

(** [utf8_decode pending acc bs]: [pending] continuation bytes are still
    expected for the code point accumulated in [acc]. *)
Fixpoint utf8_decode (pending : nat) (acc : Z) (bs : list Z) : str :=
  match bs with
  | [] => []
  | b :: r =>
      match pending with
      | O =>
          if b <? 128 then b :: utf8_decode 0 0 r
          else if b <? 224 then utf8_decode 1 (Z.land b 31) r
          else if b <? 240 then utf8_decode 2 (Z.land b 15) r
          else utf8_decode 3 (Z.land b 7) r
      | S O => (acc * 64 + Z.land b 63) :: utf8_decode 0 0 r
      | S p => utf8_decode p (acc * 64 + Z.land b 63) r
      end
  end.

Definition lit (s : string) : str := utf8_decode 0 0 (unescape (bytes_of s)).
Arguments lit : simpl never.

(** *** Truth value, comparison, membership *)

(** [if s:] / [not s]: a string is true when it is not empty. *)
Definition truthy (s : str) : bool :=
  match s with [] => false | _ :: _ => true end.

(** [lo <= c <= hi] on one-character strings compares code points. *)
Definition between (lo hi c : char) : bool := (lo <=? c) && (c <=? hi).

Fixpoint eqb (s t : str) : bool :=
  match s, t with
  | [], [] => true
  | c :: s', d :: t' => (c =? d) && eqb s' t'
  | _, _ => false
  end.

(** [s.startswith(p)] *)
Fixpoint startswith (s p : str) {struct p} : bool :=
  match p with
  | [] => true
  | d :: p' =>
      match s with
      | [] => false
      | c :: s' => (c =? d) && startswith s' p'
      end
  end.

(** [needle in hay] *)
Fixpoint contains (needle hay : str) : bool :=
  startswith hay needle
  || match hay with
     | [] => false
     | _ :: rest => contains needle rest
     end.

(** *** Whitespace and [strip]

    [str.isspace] on one character, as CPython's Unicode tables have it:
    the ASCII controls TAB..CR and FS..US, the space, NEL, NBSP, the Ogham
    space mark, U+2000..U+200A, the line and paragraph separators, the
    narrow and the medium mathematical space and the ideographic space. *)
Definition isspace (c : char) : bool :=
  between 0x09 0x0D c || between 0x1C 0x20 c
  || (c =? 0x85) || (c =? 0xA0) || (c =? 0x1680)
  || between 0x2000 0x200A c
  || (c =? 0x2028) || (c =? 0x2029) || (c =? 0x202F) || (c =? 0x205F)
  || (c =? 0x3000).

Fixpoint drop_while (p : char -> bool) (s : str) : str :=
  match s with
  | [] => []
  | c :: rest => if p c then drop_while p rest else s
  end.

Definition lstrip (s : str) : str := drop_while isspace s.
Definition rstrip (s : str) : str := rev (drop_while isspace (rev s)).

(** [s.strip()]: the left index moves right over whitespace, then the
    right index moves left over whitespace, never past the left one. *)
Definition strip (s : str) : str := rstrip (lstrip s).

(** *** [split] on a one-character separator

    [s.split(sep)] returns the pieces between the separators, empty ones
    included; there is always at least one piece. *)
Fixpoint split (sep : char) (s : str) : list str :=
  match s with
  | [] => [[]]
  | c :: rest =>
      if c =? sep then [] :: split sep rest
      else match split sep rest with
           | [] => [[c]]
           | piece :: pieces => (c :: piece) :: pieces
           end
  end.

(** [sep.join(pieces)] *)
Fixpoint join (sep : char) (pieces : list str) : str :=
  match pieces with
  | [] => []
  | [p] => p
  | p :: rest => p ++ sep :: join sep rest
  end.

(** The relations the boolean tests decide. *)
Definition begins_with (prefix s : str) : Prop := exists r, s = prefix ++ r.
Definition substring (needle hay : str) : Prop :=
  exists a b, hay = a ++ needle ++ b.

End Py.

(** Literals are compared as written; they are decoded by evaluation
    ([vm_compute]) where their characters matter. *)
Opaque Py.lit.

(** ** Effects: the page, the API, and leaving early *)

Module Fx.

Import Py.

(** One entry of the trace per call that renders something or reaches the
    outside: the Streamlit calls of app.py with their text arguments, and the
    request to the generation API. *)
Inductive effect : Type :=
| set_page_config (page_title page_icon layout : str)
| title (body : str)
| markdown (body : str)
| markdown_html (body : str)
| expander (label : str)
| subheader (body : str)
| text_input (label placeholder help : str)
| columns (spec : list Z)
| button (label : str)
| spinner (text : str)
| container
| warning (body : str)
| error (body : str)
| success (body : str)
| generate_content (model contents : str).

(** [st.stop()] and [st.rerun()] raise script-control signals; they derive
    from [BaseException], so [except Exception] does not catch them. *)
Inductive control : Type := Stop | Rerun.

Inductive result (A : Type) : Type :=
| Value (a : A)
| Raise (msg : str)
| Halt (c : control).
Arguments Value {A} a.
Arguments Raise {A} msg.
Arguments Halt {A} c.

(** A computation: what it rendered and called, and how it ended.
    [Raise msg] is a raised instance of [Exception] whose [str()] is
    [msg]. *)
Definition script (A : Type) : Type := list effect * result A.

Definition ret {A} (a : A) : script A := ([], Value a).

Definition bind {A B} (m : script A) (k : A -> script B) : script B :=
  match m with
  | (t, Value a) => let '(t', r) := k a in (t ++ t', r)
  | (t, Raise msg) => (t, Raise msg)
  | (t, Halt c) => (t, Halt c)
  end.

Definition emit (e : effect) : script unit := ([e], Value tt).
Definition raise {A} (msg : str) : script A := ([], Raise msg).
Definition halt {A} (c : control) : script A := ([], Halt c).

(** [try: body / except Exception as e: handler(str(e))] *)
Definition try_except {A} (body : script A) (handler : str -> script A)
  : script A :=
  match body with
  | (t, Raise msg) => let '(t', r) := handler msg in (t ++ t', r)
  | _ => body
  end.

Definition trace {A} (m : script A) : list effect := fst m.
Definition outcome {A} (m : script A) : result A := snd m.

End Fx.

Declare Scope script_scope.
Delimit Scope script_scope with script.
Notation "x <- m ;; k" := (Fx.bind m (fun x => k))
  (at level 61, m at next level, right associativity) : script_scope.
Notation "m ;; k" := (Fx.bind m (fun _ => k))
  (at level 61, right associativity) : script_scope.

(** ** The outside world *)

Module World.

Import Py.

(** What a call into the SDK does: it returns, or raises an [Exception]
    whose [str()] is [msg]. *)
Inductive raising (A : Type) : Type :=
| Returns (a : A)
| Raises (msg : str).
Arguments Returns {A} a.
Arguments Raises {A} msg.

(** The [text] attribute of the API's response: [None] or a string. *)
Record response : Type := { text : option str }.

(** [client.models.generate_content(model=..., contents=...)] *)
Definition client : Type := str -> str -> raising response.

Record environment : Type := {
  GEMINI_API_KEY : option str;           (* os.environ.get("GEMINI_API_KEY") *)
  genai_Client : str -> raising client   (* genai.Client(api_key=...) *)
}.

(** The values the page's widgets return in one run of the script. *)
Record widgets : Type := {
  user_input : str;          (* st.text_input *)
  generate_button : bool;    (* st.button("행시 생성하기") *)
  regenerate_button : bool   (* st.button("다른 행시 생성하기") *)
}.

End World.

(** ** app.py *)

Module App.

Import Py Fx World.
Local Open Scope script_scope.

(** The Streamlit calls, as statements of the script. *)
Definition st_markdown (body : str) : script unit := emit (markdown body).
Definition st_warning (body : str) : script unit := emit (warning body).
Definition st_error (body : str) : script unit := emit (error body).
Definition st_success (body : str) : script unit := emit (success body).
Definition st_subheader (body : str) : script unit := emit (subheader body).
Definition st_button (label : str) (clicked : bool) : script bool :=
  emit (button label) ;; ret clicked.
Definition st_stop {A} : script A := halt Stop.
Definition st_rerun {A} : script A := halt Rerun.

(** [for x in xs: body(x)] *)
Fixpoint for_each {A} (xs : list A) (body : A -> script unit) : script unit :=
  match xs with
  | [] => ret tt
  | x :: rest => body x ;; for_each rest body
  end.

(** The request itself: it is recorded, then returns or raises as the
    client does. *)
Definition models_generate_content (cl : client) (model contents : str)
  : script response :=
  emit (generate_content model contents) ;;
  match cl model contents with
  | Returns r => ret r
  | Raises msg => raise msg
  end.

(** [get_gemini_client] (lines 8-14) *)
Definition get_gemini_client (env : environment) : script client :=
  let api_key := GEMINI_API_KEY env in
  match api_key with
  | Some ((_ :: _) as key) =>
      match genai_Client env key with
      | Returns cl => ret cl
      | Raises msg => raise msg
      end
  | _ =>
      st_error (lit "GEMINI_API_KEY 환경변수가 설정되지 않았습니다.") ;;
      st_stop
  end.

(** The prompt of [generate_korean_poetry] (lines 29-40). *)
Definition build_prompt (word : str) : str :=
  let clean_word := strip word in
  let prompt := lit "당신은 한국어 행시 전문가입니다. 주어진 단어의 각 글자로 시작하는 행시를 만들어주세요.\n\n" in
  let prompt := prompt ++ lit "규칙:\n" in
  let prompt := prompt ++ (lit "1. 단어 '" ++ clean_word ++ lit "'의 각 글자로 시작하는 행시를 만드세요\n") in
  let prompt := prompt ++ lit "2. 각 행은 해당 글자를 대괄호로 감싸서 시작해야 합니다 (예: [바], [다])\n" in
  let prompt := prompt ++ lit "3. 각 행은 의미있고 아름다운 문장이어야 합니다\n" in
  let prompt := prompt ++ lit "4. 전체적으로 통일감 있는 주제나 이야기가 있으면 좋습니다\n" in
  let prompt := prompt ++ lit "5. 각 행은 10-20자 정도의 적당한 길이로 만드세요\n\n" in
  let prompt := prompt ++ (lit "단어: " ++ clean_word ++ lit "\n\n") in
  let prompt := prompt ++ lit "행시를 만들어주세요:" in
  prompt.

(** [validate_korean_input] (lines 59-74) *)
Definition validate_korean_input (text : str) : bool :=
  if negb (truthy text) || negb (truthy (strip text)) then false
  else
    let korean_chars := filter (between 0xAC00 0xD7A3) text in
    (0 <? Z.of_nat (List.length korean_chars)).

Section WithLower.

(** [str.lower]: the Unicode lowercase mapping of the Python runtime.  Its
    tables are not part of the program; what is proved below holds for
    every such mapping. *)
Variable lower : str -> str.

(** [generate_korean_poetry] (lines 16-57) *)
Definition generate_korean_poetry (word : str) (cl : client) : script str :=
  try_except
    (let prompt := build_prompt word in
     response <- models_generate_content cl (lit "gemini-2.5-flash") prompt ;;
     match text response with
     | Some ((_ :: _) as t) => ret (strip t)
     | _ => ret (lit "행시 생성에 실패했습니다. 다시 시도해주세요.")
     end)
    (fun error_msg =>
       if contains (lit "ascii") (lower error_msg)
          || contains (lit "codec") (lower error_msg)
       then ret (lit "한글 처리 오류가 발생했습니다. 잠시 후 다시 시도해주세요.")
       else ret (lit "API 오류가 발생했습니다: " ++ error_msg)).

(** The display of the generated poetry in [main] (lines 166-181). *)
Definition display_poetry (w : widgets) (poetry : str) : script unit :=
  if truthy poetry
     && negb (startswith poetry (lit "행시 생성에 실패"))
     && negb (startswith poetry (lit "API 오류"))
  then
    let poetry_lines := split 10 poetry in
    for_each poetry_lines (fun line =>
      if truthy (strip line)
      then st_markdown (lit "**" ++ strip line ++ lit "**")
      else ret tt) ;;
    st_markdown (lit "---") ;;
    st_success (lit "✅ 행시가 성공적으로 생성되었습니다!") ;;
    clicked <- st_button (lit "다른 행시 생성하기") (regenerate_button w) ;;
    if clicked then st_rerun else ret tt
  else
    st_error poetry.

(** The inline validation of [main] (lines 127-133). *)
Definition display_input_validation (w : widgets) : script unit :=
  let user_input := user_input w in
  if truthy user_input then
    if negb (validate_korean_input user_input) then
      st_warning (lit "⚠️ 한국어 단어를 입력해주세요.")
    else if (10 <? Z.of_nat (List.length (strip user_input))) then
      st_warning (lit "⚠️ 10자 이하의 단어를 입력해주세요.")
    else if (Z.of_nat (List.length (strip user_input)) <? 2) then
      st_warning (lit "⚠️ 2자 이상의 단어를 입력해주세요.")
    else ret tt
  else ret tt.

(** What [main] does when the button is clicked (lines 136-181). *)
Definition submit (cl : client) (w : widgets) : script unit :=
  let user_input := user_input w in
  if generate_button w then
    if negb (truthy user_input) || negb (truthy (strip user_input)) then
      st_error (lit "단어를 입력해주세요.")
    else if negb (validate_korean_input user_input) then
      st_error (lit "한국어 단어를 입력해주세요.")
    else if (10 <? Z.of_nat (List.length (strip user_input))) then
      st_error (lit "10자 이하의 단어를 입력해주세요.")
    else if (Z.of_nat (List.length (strip user_input)) <? 2) then
      st_error (lit "2자 이상의 단어를 입력해주세요.")
    else
      let clean_word := strip user_input in
      emit (spinner (lit "'" ++ clean_word ++ lit "' 행시를 생성하고 있습니다...")) ;;
      poetry <- generate_korean_poetry clean_word cl ;;
      st_subheader (lit "생성된 행시") ;;
      emit container ;;
      st_markdown (lit "---") ;;
      st_markdown (lit "**주제어:** " ++ clean_word) ;;
      st_markdown (lit "") ;;
      display_poetry w poetry
  else ret tt.

(** [main] (lines 76-190) *)
Definition main (env : environment) (w : widgets) : script unit :=
  emit (set_page_config (lit "한국어 N행시 생성기") (lit "📝") (lit "centered")) ;;
  emit (title (lit "📝 한국어 N행시 생성기")) ;;
  st_markdown (lit "**Gemini AI를 활용한 창의적인 행시 생성**") ;;
  st_markdown (lit "---") ;;
  emit (expander (lit "사용법")) ;;
  st_markdown (lit "
        1. 아래 입력란에 한국어 단어를 입력하세요
        2. '행시 생성하기' 버튼을 클릭하세요
        3. AI가 각 글자로 시작하는 아름다운 행시를 만들어드립니다
        
        **예시:**
        - 입력: 바다
        - 출력: [바]람이 불어오는 / [다]정한 마음으로
        ") ;;
  cl <- try_except (get_gemini_client env)
          (fun e => st_error (lit "Gemini API 초기화 실패: " ++ e) ;; st_stop) ;;
  st_subheader (lit "단어 입력") ;;
  emit (text_input (lit "행시를 만들 한국어 단어를 입력하세요:")
                   (lit "예: 바다, 사랑, 희망")
                   (lit "2-10자의 한국어 단어를 입력해주세요")) ;;
  emit (columns [3; 1]) ;;
  emit (button (lit "행시 생성하기")) ;;
  display_input_validation w ;;
  submit cl w ;;
  st_markdown (lit "---") ;;
  emit (markdown_html (lit "<div style='text-align: center; color: #666;'>Powered by Google Gemini AI</div>")).

End WithLower.

(** The lowercase mapping on ASCII letters, every other character kept:
    what [str.lower] does on ASCII text.  It is used to run the model on
    concrete inputs. *)
Definition ascii_lower (s : str) : str :=
  map (fun c => if between 65 90 c then c + 32 else c) s.

End App.

(** Names for the texts the properties below speak about; each is the
    literal of the source. *)
Module Text.

Import Py.

Abbreviation MODEL := (lit "gemini-2.5-flash").
Abbreviation GENERATION_FAILED :=
  (lit "행시 생성에 실패했습니다. 다시 시도해주세요.").
Abbreviation ENCODING_ERROR :=
  (lit "한글 처리 오류가 발생했습니다. 잠시 후 다시 시도해주세요.").
Abbreviation API_ERROR := (lit "API 오류가 발생했습니다: ").
Abbreviation SUCCESS := (lit "✅ 행시가 성공적으로 생성되었습니다!").
Abbreviation REGENERATE := (lit "다른 행시 생성하기").

(** A poem line as the page shows it: the stripped line in bold. *)
Definition poem_line (line : str) : Fx.effect :=
  Fx.markdown (lit "**" ++ strip line ++ lit "**").

Definition nonblank (line : str) : bool := truthy (strip line).

(** [hangul c]: the code point is a Hangul syllable, U+AC00..U+D7A3. *)
Definition hangul (c : char) : Prop := 0xAC00 <= c <= 0xD7A3.

(** The word that is accepted: what [main] tests before it generates. *)
Definition accepted (user_input : str) : Prop :=
  App.validate_korean_input user_input = true
  /\ (2 <= List.length (strip user_input) <= 10)%nat.

End Text.

(** Concrete worlds to run the page in. *)
Module Scenario.

Import Py World.

(** A client that answers every request with the same text. *)
Definition answering (t : option str) : client :=
  fun _ _ => Returns {| text := t |}.

(** A client whose every request raises. *)
Definition failing (msg : str) : client := fun _ _ => Raises msg.

(** An environment with a credential, whose SDK hands out [cl]. *)
Definition ready (cl : client) : environment :=
  {| GEMINI_API_KEY := Some (lit "key"); genai_Client := fun _ => Returns cl |}.

(** The page after [word] was typed and the generate button clicked. *)
Definition submitted (word : str) : widgets :=
  {| user_input := word; generate_button := true; regenerate_button := false |}.

End Scenario.

(** What the page shows around the submit flow, and what a trace holds. *)
Module Page.

Import Py Fx World.

(** The top of the page ([main], lines 80-101). *)
Definition page_head : list effect :=
  [set_page_config (lit "한국어 N행시 생성기") (lit "📝") (lit "centered");
   title (lit "📝 한국어 N행시 생성기");
   markdown (lit "**Gemini AI를 활용한 창의적인 행시 생성**");
   markdown (lit "---");
   expander (lit "사용법");
   markdown (lit "
        1. 아래 입력란에 한국어 단어를 입력하세요
        2. '행시 생성하기' 버튼을 클릭하세요
        3. AI가 각 글자로 시작하는 아름다운 행시를 만들어드립니다
        
        **예시:**
        - 입력: 바다
        - 출력: [바]람이 불어오는 / [다]정한 마음으로
        ")].

(** The input form ([main], lines 111-124). *)
Definition input_section : list effect :=
  [subheader (lit "단어 입력");
   text_input (lit "행시를 만들 한국어 단어를 입력하세요:")
              (lit "예: 바다, 사랑, 희망")
              (lit "2-10자의 한국어 단어를 입력해주세요");
   columns [3; 1];
   button (lit "행시 생성하기")].

(** The footer ([main], lines 184-190). *)
Definition page_foot : list effect :=
  [markdown (lit "---");
   markdown_html (lit "<div style='text-align: center; color: #666;'>Powered by Google Gemini AI</div>")].

(** What [main] shows for an accepted word before the poetry itself
    (lines 150-163). *)
Definition result_head (clean_word : str) : list effect :=
  [spinner (lit "'" ++ clean_word ++ lit "' 행시를 생성하고 있습니다...");
   generate_content (lit "gemini-2.5-flash") (App.build_prompt clean_word);
   subheader (lit "생성된 행시");
   container;
   markdown (lit "---");
   markdown (lit "**주제어:** " ++ clean_word);
   markdown (lit "")].

(** The requests to the generation API among the effects of a run. *)
Definition is_request (e : effect) : bool :=
  match e with
  | generate_content _ _ => true
  | _ => false
  end.

Definition requests (t : list effect) : list effect := filter is_request t.

(** The text shows as an error banner: it is empty or begins with one of
    the two prefixes the display tests. *)
Definition failure_text (poetry : str) : Prop :=
  poetry = []
  \/ begins_with (lit "행시 생성에 실패") poetry
  \/ begins_with (lit "API 오류") poetry.

(** How [get_gemini_client] ends, by the environment. *)
Inductive client_status (env : environment) : script client -> Prop :=
| no_key :
    GEMINI_API_KEY env = None \/ GEMINI_API_KEY env = Some [] ->
    client_status env
      ([error (lit "GEMINI_API_KEY 환경변수가 설정되지 않았습니다.")], Halt Stop)
| construction_fails key msg :
    GEMINI_API_KEY env = Some key -> key <> [] ->
    genai_Client env key = Raises msg ->
    client_status env ([], Raise msg)
| client_ready key cl :
    GEMINI_API_KEY env = Some key -> key <> [] ->
    genai_Client env key = Returns cl ->
    client_status env ([], Value cl).

(** Why [main] rejects an input after a click, with the message of its
    error banner (lines 137-144). *)
Inductive rejection (user_input : str) : str -> Prop :=
| blank :
    strip user_input = [] ->
    rejection user_input (lit "단어를 입력해주세요.")
| not_korean :
    strip user_input <> [] ->
    App.validate_korean_input user_input = false ->
    rejection user_input (lit "한국어 단어를 입력해주세요.")
| too_long :
    App.validate_korean_input user_input = true ->
    (10 < List.length (strip user_input))%nat ->
    rejection user_input (lit "10자 이하의 단어를 입력해주세요.")
| too_short :
    App.validate_korean_input user_input = true ->
    (List.length (strip user_input) < 2)%nat ->
    rejection user_input (lit "2자 이상의 단어를 입력해주세요.").

(** The same word in another letter case, on ASCII letters. *)
Definition same_up_to_ascii_case (u v : str) : Prop :=
  App.ascii_lower u = App.ascii_lower v.

End Page.

(** More concrete worlds. *)
Module Worlds.

Import Py World.

(** No credential in the environment. *)
Definition no_credential : environment :=
  {| GEMINI_API_KEY := None; genai_Client := fun _ => Raises [] |}.

(** A credential, but the SDK refuses to build a client. *)
Definition broken_sdk (msg : str) : environment :=
  {| GEMINI_API_KEY := Some (lit "key"); genai_Client := fun _ => Raises msg |}.

(** The page with [word] typed and no button clicked. *)
Definition typed (word : str) : widgets :=
  {| user_input := word; generate_button := false; regenerate_button := false |}.

(** The page with [word] typed and both buttons reported as clicked. *)
Definition regenerating (word : str) : widgets :=
  {| user_input := word; generate_button := true; regenerate_button := true |}.

End Worlds.

(** Membership in a concrete list, by evaluation. *)
Ltac in_list := vm_compute; repeat (first [left; reflexivity | right]).

(** A concrete string has no Hangul syllable, character by character. *)
Ltac no_hangul :=
  let c := fresh "c" in
  let Hin := fresh "Hin" in
  intros c Hin [? ?]; vm_compute in Hin;
  repeat (destruct Hin as [<-|Hin]; [lia|]); contradiction.

(** ** The model on concrete inputs *)

Example lit_hangul : Py.lit "바다" = [0xBC14; 0xB2E4].
Proof. vm_compute. reflexivity. Qed.

Example lit_escape : Py.lit "a\nb" = [97; 10; 98].
Proof. vm_compute. reflexivity. Qed.

Example lit_astral : Py.lit "📝" = [0x1F4DD].
Proof. vm_compute. reflexivity. Qed.

Example lit_prefixes :
  Py.lit "행시 생성에 실패" = [0xD589; 0xC2DC; 32; 0xC0DD; 0xC131; 0xC5D0; 32; 0xC2E4; 0xD328]
  /\ Py.lit "API 오류" = [65; 80; 73; 32; 0xC624; 0xB958].
Proof. vm_compute. split; reflexivity. Qed.

Example strip_example : Py.strip (Py.lit "  \n 바 다\n ") = Py.lit "바 다".
Proof. vm_compute. reflexivity. Qed.

Example split_example :
  Py.split 10 (Py.lit "a\n\nbc\n") = [Py.lit "a"; []; Py.lit "bc"; []].
Proof. vm_compute. reflexivity. Qed.

Example contains_example :
  Py.contains (Py.lit "codec") (Py.lit "'ascii' codec can't encode") = true.
Proof. vm_compute. reflexivity. Qed.

Example validate_example :
  App.validate_korean_input (Py.lit "한글 abc") = true
  /\ App.validate_korean_input (Py.lit "abc") = false.
Proof. vm_compute. split; reflexivity. Qed.

(** Without a credential the page stops after the configuration error. *)
Example main_without_key :
  Fx.outcome
    (App.main App.ascii_lower
       {| World.GEMINI_API_KEY := None;
          World.genai_Client := fun _ => World.Raises [] |}
       (Scenario.submitted (Py.lit "바다")))
  = Fx.Halt Fx.Stop.
Proof. vm_compute. reflexivity. Qed.

(** A click on "다른 행시 생성하기" reruns the script. *)
Example main_rerun :
  Fx.outcome
    (App.main App.ascii_lower
       (Scenario.ready (Scenario.answering (Some (Py.lit "[바]\n[다]"))))
       {| World.user_input := Py.lit "바다";
          World.generate_button := true;
          World.regenerate_button := true |})
  = Fx.Halt Fx.Rerun.
Proof. vm_compute. reflexivity. Qed.

(** ** Facts about the string operations *)

Module PyFacts.

Import Py.

Lemma startswith_app (p r : str) : startswith (p ++ r) p = true.
Proof.
  induction p as [|d p IH]; simpl; [reflexivity|].
  now rewrite Z.eqb_refl, IH.
Qed.

Lemma startswith_inv (s p : str) :
  startswith s p = true -> exists r, s = p ++ r.
Proof.
  revert s; induction p as [|d p IH]; intros s H.
  - now exists s.
  - destruct s as [|c s]; simpl in H; [discriminate|].
    apply andb_true_iff in H as [Hc Hs].
    apply Z.eqb_eq in Hc; subst d.
    destruct (IH _ Hs) as [r ->]. now exists r.
Qed.

Lemma startswith_iff (s p : str) :
  startswith s p = true <-> begins_with p s.
Proof.
  split; [apply startswith_inv|].
  intros [r ->]; apply startswith_app.
Qed.

Lemma startswith_false_iff (s p : str) :
  startswith s p = false <-> ~ begins_with p s.
Proof.
  rewrite <- startswith_iff. destruct (startswith s p); split; congruence.
Qed.

Lemma contains_iff (needle hay : str) :
  contains needle hay = true <-> substring needle hay.
Proof.
  unfold substring.
  induction hay as [|c hay IH]; simpl.
  - rewrite orb_false_r; split.
    + intros H; destruct (startswith_inv _ _ H) as [r Hr].
      now exists [], r.
    + intros (a & b & H).
      destruct a; [|discriminate].
      destruct needle; [reflexivity|discriminate].
  - rewrite orb_true_iff, IH; split.
    + intros [H|(a & b & ->)].
      * destruct (startswith_inv _ _ H) as [r Hr]. now exists [], r.
      * now exists (c :: a), b.
    + intros (a & b & H). destruct a as [|x a].
      * left. simpl in H. rewrite H. apply startswith_app.
      * right. injection H as _ ->. now exists a, b.
Qed.

Lemma truthy_iff (s : str) : truthy s = true <-> s <> [].
Proof. destruct s; simpl; split; congruence. Qed.

(** *** [drop_while] and [strip] *)

Lemma drop_while_idem p s : drop_while p (drop_while p s) = drop_while p s.
Proof.
  induction s as [|c s IH]; simpl; [reflexivity|].
  destruct (p c) eqn:E; [exact IH|]. simpl. now rewrite E.
Qed.

Lemma drop_while_snoc p s c :
  p c = false -> drop_while p (s ++ [c]) = drop_while p s ++ [c].
Proof.
  intros Hc; induction s as [|x s IH]; simpl.
  - now rewrite Hc.
  - destruct (p x); [exact IH|reflexivity].
Qed.

Lemma drop_while_suffix p s : exists a, s = a ++ drop_while p s /\ forallb p a = true.
Proof.
  induction s as [|c s (a & IH & Ha)]; simpl.
  - now exists [].
  - destruct (p c) eqn:E.
    + exists (c :: a). simpl. rewrite E, Ha. now rewrite <- IH.
    + now exists [].
Qed.

Lemma in_drop_while p s c : In c s -> p c = false -> In c (drop_while p s).
Proof.
  intros Hin Hc; induction s as [|x s IH]; simpl in *; [contradiction|].
  destruct Hin as [->|Hin].
  - rewrite Hc; now left.
  - destruct (p x); [now apply IH|now right].
Qed.

Lemma rstrip_cons c s : isspace c = false -> rstrip (c :: s) = c :: rstrip s.
Proof.
  intros Hc; unfold rstrip; simpl.
  rewrite drop_while_snoc by exact Hc.
  now rewrite rev_app_distr.
Qed.

Lemma rstrip_idem s : rstrip (rstrip s) = rstrip s.
Proof.
  unfold rstrip. now rewrite rev_involutive, drop_while_idem.
Qed.

(** Stripping changes nothing on a stripped string. *)
Lemma strip_idem s : strip (strip s) = strip s.
Proof.
  unfold strip, lstrip.
  induction s as [|c s IH]; [reflexivity|]; simpl.
  destruct (isspace c) eqn:E; [exact IH|].
  rewrite rstrip_cons by exact E. simpl; rewrite E.
  rewrite rstrip_cons by exact E. now rewrite rstrip_idem.
Qed.

(** What [strip] removes is whitespace at the two ends. *)
Lemma strip_decompose s :
  exists a b, s = a ++ strip s ++ b
              /\ forallb isspace a = true /\ forallb isspace b = true.
Proof.
  unfold strip, lstrip, rstrip.
  destruct (drop_while_suffix isspace s) as (a & Ha & Hsa).
  destruct (drop_while_suffix isspace (rev (drop_while isspace s)))
    as (b & Hb & Hsb).
  exists a, (rev b). repeat split; [|exact Hsa|].
  - rewrite <- rev_app_distr, <- Hb, rev_involutive. exact Ha.
  - rewrite forallb_forall in *. intros x Hx. apply Hsb. now apply in_rev.
Qed.

Lemma in_strip s c : In c s -> isspace c = false -> In c (strip s).
Proof.
  intros Hin Hc. unfold strip, rstrip, lstrip.
  rewrite <- in_rev. apply in_drop_while; [|exact Hc].
  rewrite <- in_rev. now apply in_drop_while.
Qed.

Lemma strip_incl s c : In c (strip s) -> In c s.
Proof.
  destruct (strip_decompose s) as (a & b & H & _).
  intros Hin. rewrite H. apply in_or_app; right. apply in_or_app; now left.
Qed.

Lemma hangul_not_space c : between 0xAC00 0xD7A3 c = true -> isspace c = false.
Proof.
  unfold between, isspace, between. intros H.
  apply andb_true_iff in H as [H1 H2].
  apply Z.leb_le in H1, H2.
  repeat (apply orb_false_iff; split);
    try (apply andb_false_iff; left; apply Z.leb_gt; lia);
    try (apply andb_false_iff; right; apply Z.leb_gt; lia);
    apply Z.eqb_neq; lia.
Qed.

(** *** [split] *)

Lemma split_not_nil sep s : split sep s <> [].
Proof.
  destruct s as [|c s]; simpl; [discriminate|].
  destruct (c =? sep); [discriminate|].
  destruct (split sep s); discriminate.
Qed.

Lemma join_split sep s : join sep (split sep s) = s.
Proof.
  induction s as [|c s IH]; [reflexivity|]; simpl.
  destruct (c =? sep) eqn:E.
  - apply Z.eqb_eq in E; subst c.
    pose proof (split_not_nil sep s) as Hne.
    destruct (split sep s) as [|q qs]; [contradiction|].
    simpl in *. now rewrite IH.
  - pose proof (split_not_nil sep s) as Hne.
    destruct (split sep s) as [|q qs]; [contradiction|].
    destruct qs; simpl in *; now rewrite IH.
Qed.

Lemma split_no_sep sep s piece : In piece (split sep s) -> ~ In sep piece.
Proof.
  revert piece; induction s as [|c s IH]; simpl; intros piece Hin.
  - destruct Hin as [<-|[]]. intros [].
  - destruct (c =? sep) eqn:E.
    + destruct Hin as [<-|Hin]; [intros []|now apply IH].
    + apply Z.eqb_neq in E.
      pose proof (split_not_nil sep s) as Hne.
      destruct (split sep s) as [|q qs]; [contradiction|].
      destruct Hin as [<-|Hin].
      * intros [H|H]; [congruence|]. apply (IH q); [now left|exact H].
      * apply IH. now right.
Qed.

End PyFacts.

(** ** Facts about scripts *)

Module FxFacts.

Import Py Fx.

Lemma bind_ret_l {A B} (a : A) (k : A -> script B) : bind (ret a) k = k a.
Proof. unfold bind, ret. now destruct (k a). Qed.

Lemma bind_ret_r {A} (m : script A) : bind m ret = m.
Proof.
  destruct m as [t [a|msg|c]]; simpl; [|reflexivity|reflexivity].
  now rewrite app_nil_r.
Qed.

Lemma bind_assoc {A B C} (m : script A) (k : A -> script B) (h : B -> script C) :
  bind (bind m k) h = bind m (fun a => bind (k a) h).
Proof.
  destruct m as [t [a|msg|c]]; simpl; [|reflexivity|reflexivity].
  destruct (k a) as [t' [b|msg|c]]; simpl; [|reflexivity|reflexivity].
  destruct (h b) as [t'' r]. now rewrite app_assoc.
Qed.

Lemma trace_bind_value {A B} (m : script A) (k : A -> script B) a :
  outcome m = Value a -> trace (bind m k) = trace m ++ trace (k a).
Proof.
  destruct m as [t r]; simpl; intros ->. simpl. now destruct (k a).
Qed.

Lemma outcome_bind_value {A B} (m : script A) (k : A -> script B) a :
  outcome m = Value a -> outcome (bind m k) = outcome (k a).
Proof.
  destruct m as [t r]; simpl; intros ->. simpl. now destruct (k a).
Qed.

(** Whatever a sequence did was done by its first part, or by the rest
    after the first part returned. *)
Lemma in_trace_bind {A B} (m : script A) (k : A -> script B) e :
  In e (trace (bind m k)) ->
  In e (trace m) \/ exists a, outcome m = Value a /\ In e (trace (k a)).
Proof.
  destruct m as [t [a|msg|c]]; simpl; [|now left|now left].
  destruct (k a) as [t' r] eqn:E; simpl. intros H.
  apply in_app_or in H as [H|H]; [now left|right].
  exists a. rewrite E. now split.
Qed.

Lemma in_trace_bind_l {A B} (m : script A) (k : A -> script B) e :
  In e (trace m) -> In e (trace (bind m k)).
Proof.
  destruct m as [t [a|msg|c]]; simpl; try easy.
  destruct (k a) as [t' r]; simpl. intros H. apply in_or_app. now left.
Qed.

Lemma in_trace_bind_r {A B} (m : script A) (k : A -> script B) a e :
  outcome m = Value a -> In e (trace (k a)) -> In e (trace (bind m k)).
Proof.
  intros Hm He. rewrite (trace_bind_value _ _ _ Hm). apply in_or_app. now right.
Qed.

End FxFacts.

(** ** Facts about app.py *)

Module AppFacts.

Import Py Fx World App Text PyFacts FxFacts.
Local Open Scope script_scope.

Arguments build_prompt : simpl never.

Lemma between_iff lo hi c : between lo hi c = true <-> lo <= c <= hi.
Proof. unfold between. rewrite andb_true_iff, !Z.leb_le. tauto. Qed.

(** The validator decides the presence of a Hangul syllable. *)
Lemma validate_korean_input_spec (text : str) :
  validate_korean_input text = true <-> exists c, In c text /\ hangul c.
Proof.
  unfold validate_korean_input, hangul. split.
  - destruct (negb (truthy text) || negb (truthy (strip text)));
      [discriminate|].
    intros H. apply Z.ltb_lt in H.
    destruct (filter (between 44032 55203) text) as [|c r] eqn:E;
      [simpl in H; lia|].
    assert (Hc : In c (filter (between 44032 55203) text))
      by (rewrite E; now left).
    apply filter_In in Hc as [Hin Hb]. exists c. split; [exact Hin|].
    now apply between_iff.
  - intros (c & Hin & Hc). apply between_iff in Hc.
    assert (Hs : In c (strip text))
      by (apply in_strip; [exact Hin|now apply hangul_not_space]).
    destruct text as [|x text]; [contradiction|].
    destruct (strip (x :: text)) as [|y r]; [contradiction|]. simpl negb.
    simpl orb. cbv iota.
    assert (Hf : In c (filter (between 44032 55203) (x :: text)))
      by (apply filter_In; now split).
    destruct (filter (between 44032 55203) (x :: text)); [contradiction|].
    apply Z.ltb_lt. simpl List.length. lia.
Qed.

Lemma validate_true_nonblank (text : str) :
  validate_korean_input text = true ->
  negb (truthy text) || negb (truthy (strip text)) = false.
Proof.
  unfold validate_korean_input.
  destruct (negb (truthy text) || negb (truthy (strip text))); congruence.
Qed.

(** A Hangul syllable of the input is still there after stripping. *)
Lemma validate_true_strip (text : str) :
  validate_korean_input text = true ->
  exists c, In c (strip text) /\ hangul c.
Proof.
  intros H. apply validate_korean_input_spec in H as (c & Hin & Hc).
  exists c. split; [|exact Hc].
  apply in_strip; [exact Hin|]. apply hangul_not_space. now apply between_iff.
Qed.

Lemma try_except_value {A} (body : script A) handler a :
  outcome body = Value a -> try_except body handler = body.
Proof. destruct body as [t r]; simpl; now intros ->. Qed.

(** The loop over the lines shows the non-blank ones, in order. *)
Lemma for_each_poem_lines (lines : list str) :
  for_each lines (fun line =>
    if truthy (strip line)
    then st_markdown (lit "**" ++ strip line ++ lit "**")
    else ret tt)
  = (map poem_line (filter nonblank lines), Value tt).
Proof.
  induction lines as [|line lines IH]; [reflexivity|].
  cbn [for_each filter map]. rewrite IH. unfold nonblank.
  destruct (truthy (strip line)); reflexivity.
Qed.

(** The display, branch by branch. *)
Lemma display_poetry_eq (w : widgets) (poetry : str) :
  display_poetry w poetry =
  if truthy poetry
     && negb (startswith poetry (lit "행시 생성에 실패"))
     && negb (startswith poetry (lit "API 오류"))
  then (map poem_line (filter nonblank (split 10 poetry))
          ++ [markdown (lit "---"); success SUCCESS; button REGENERATE],
        if regenerate_button w then Halt Rerun else Value tt)
  else ([error poetry], Value tt).
Proof.
  unfold display_poetry.
  destruct (truthy poetry && negb (startswith poetry (lit "행시 생성에 실패"))
            && negb (startswith poetry (lit "API 오류"))); [|reflexivity].
  cbv zeta. rewrite for_each_poem_lines.
  destruct (regenerate_button w); cbv [bind st_markdown st_success st_button
    st_rerun emit ret halt]; now rewrite ?app_nil_r, <- ?app_assoc.
Qed.

Lemma display_poetry_no_request w poetry model contents :
  ~ In (generate_content model contents) (trace (display_poetry w poetry)).
Proof.
  rewrite display_poetry_eq.
  destruct (truthy poetry && _ && _); cbn [trace fst].
  - intros H. apply in_app_or in H as [H|H].
    + apply in_map_iff in H as (line & Heq & _). discriminate.
    + repeat (destruct H as [H|H]; [discriminate|]). exact H.
  - intros [H|[]]. discriminate.
Qed.

Lemma display_input_validation_returns w :
  outcome (display_input_validation w) = Value tt.
Proof.
  unfold display_input_validation. cbv zeta.
  repeat match goal with |- context [if ?b then _ else _] => destruct b end;
    reflexivity.
Qed.

Lemma display_input_validation_no_request w model contents :
  ~ In (generate_content model contents) (trace (display_input_validation w)).
Proof.
  unfold display_input_validation. cbv zeta.
  repeat match goal with |- context [if ?b then _ else _] => destruct b end;
    cbn [trace fst st_warning emit ret]; intros H;
    repeat (destruct H as [H|H]; [discriminate|]); exact H.
Qed.

Section WithLower.

Variable lower : str -> str.

(** [generate_korean_poetry] makes one request and returns a string,
    whatever the client does. *)
Lemma generate_korean_poetry_eq (word : str) (cl : client) :
  generate_korean_poetry lower word cl =
  ([generate_content MODEL (build_prompt word)],
   Value match cl MODEL (build_prompt word) with
         | Returns r =>
             match text r with
             | Some ((_ :: _) as t) => strip t
             | _ => GENERATION_FAILED
             end
         | Raises msg =>
             if contains (lit "ascii") (lower msg)
                || contains (lit "codec") (lower msg)
             then ENCODING_ERROR
             else API_ERROR ++ msg
         end).
Proof.
  unfold generate_korean_poetry, models_generate_content.
  destruct (cl MODEL (build_prompt word)) as [r|msg].
  - destruct r as [[[|c t]|]];
      cbv [try_except bind emit ret raise text]; reflexivity.
  - cbv [try_except bind emit ret raise].
    destruct (contains (lit "ascii") (lower msg)
              || contains (lit "codec") (lower msg)); reflexivity.
Qed.

Lemma generate_korean_poetry_returns (word : str) (cl : client) :
  exists poetry,
    generate_korean_poetry lower word cl
    = ([generate_content MODEL (build_prompt word)], Value poetry).
Proof. rewrite generate_korean_poetry_eq. eexists. reflexivity. Qed.

(** [submit] on an accepted word, after a click. *)
Lemma submit_accepted (cl : client) (w : widgets) :
  generate_button w = true -> accepted (user_input w) ->
  submit lower cl w =
  (let clean_word := strip (user_input w) in
   emit (spinner (lit "'" ++ clean_word ++ lit "' 행시를 생성하고 있습니다...")) ;;
   poetry <- generate_korean_poetry lower clean_word cl ;;
   st_subheader (lit "생성된 행시") ;;
   emit container ;;
   st_markdown (lit "---") ;;
   st_markdown (lit "**주제어:** " ++ clean_word) ;;
   st_markdown (lit "") ;;
   display_poetry w poetry).
Proof.
  intros Hclick (Hval & Hlen). unfold submit. cbv zeta.
  rewrite Hclick, (validate_true_nonblank _ Hval), Hval. cbn [negb].
  destruct (10 <? _) eqn:E1; [apply Z.ltb_lt in E1; exfalso; lia|].
  destruct (_ <? 2) eqn:E2; [apply Z.ltb_lt in E2; exfalso; lia|].
  reflexivity.
Qed.

(** A request in the trace of [submit] was made after a click, on an
    accepted word, with the prompt of the stripped word. *)
Lemma submit_request (cl : client) (w : widgets) model contents :
  In (generate_content model contents) (trace (submit lower cl w)) ->
  generate_button w = true /\ accepted (user_input w)
  /\ model = MODEL /\ contents = build_prompt (strip (user_input w)).
Proof.
  unfold submit. cbv zeta.
  destruct (generate_button w); [|intros []].
  destruct (negb (truthy (user_input w)) || _);
    [intros [H|[]]; discriminate|].
  destruct (validate_korean_input (user_input w)) eqn:Hval; cbn [negb];
    [|intros [H|[]]; discriminate].
  destruct (10 <? _) eqn:E1; [intros [H|[]]; discriminate|].
  destruct (_ <? 2) eqn:E2; [intros [H|[]]; discriminate|].
  apply Z.ltb_ge in E1, E2.
  intros H.
  apply in_trace_bind in H as [[H|[]]|(_ & _ & H)]; [discriminate|].
  destruct (generate_korean_poetry_returns (strip (user_input w)) cl)
    as (poetry & Hgen).
  rewrite Hgen in H.
  apply in_trace_bind in H as [[H|[]]|(p & _ & H)].
  - injection H as <- <-.
    split; [reflexivity|]. split; [split; [exact Hval|lia]|].
    split; reflexivity.
  - repeat (apply in_trace_bind in H as [[H|[]]|(_ & _ & H)];
            [discriminate|]).
    now apply display_poetry_no_request in H.
Qed.

Lemma get_gemini_client_no_request env handler model contents :
  (forall msg, ~ In (generate_content model contents) (trace (handler msg))) ->
  ~ In (generate_content model contents)
       (trace (try_except (get_gemini_client env) handler)).
Proof.
  intros Hh. unfold get_gemini_client. cbv zeta.
  destruct (GEMINI_API_KEY env) as [[|k key]|].
  - intros [H|[]]; discriminate.
  - destruct (genai_Client env (k :: key)) as [cl|msg].
    + intros [].
    + cbn [try_except raise]. destruct (handler msg) as [t r] eqn:E.
      specialize (Hh msg). rewrite E in Hh. exact Hh.
  - intros [H|[]]; discriminate.
Qed.

(** Every request of [main] is a request of [submit]. *)
Lemma main_request (env : environment) (w : widgets) model contents :
  In (generate_content model contents) (trace (main lower env w)) ->
  exists cl, In (generate_content model contents) (trace (submit lower cl w)).
Proof.
  unfold main. intros H.
  do 6 (apply in_trace_bind in H as [[H|[]]|(_ & _ & H)]; [discriminate|]).
  apply in_trace_bind in H as [H|(cl & _ & H)].
  { exfalso. revert H. apply get_gemini_client_no_request.
    intros msg [H|[]]. discriminate. }
  do 4 (apply in_trace_bind in H as [[H|[]]|(_ & _ & H)]; [discriminate|]).
  apply in_trace_bind in H as [H|(_ & _ & H)];
    [now apply display_input_validation_no_request in H|].
  apply in_trace_bind in H as [H|(_ & _ & H)]; [now exists cl|].
  apply in_trace_bind in H as [[H|[]]|(_ & _ & H)]; [discriminate|].
  destruct H as [H|[]]. discriminate.
Qed.

(** With a client at hand, [main] shows what the inline validation and
    [submit] show. *)
Lemma main_shows (env : environment) (cl : client) (w : widgets) e :
  outcome (get_gemini_client env) = Value cl ->
  In e (trace (display_input_validation w))
  \/ In e (trace (submit lower cl w)) ->
  In e (trace (main lower env w)).
Proof.
  intros Hcl H. unfold main.
  do 6 (eapply in_trace_bind_r; [reflexivity|]).
  rewrite (try_except_value _ _ _ Hcl).
  eapply in_trace_bind_r; [exact Hcl|].
  do 4 (eapply in_trace_bind_r; [reflexivity|]).
  destruct H as [H|H].
  - now apply in_trace_bind_l.
  - eapply in_trace_bind_r; [apply display_input_validation_returns|].
    now apply in_trace_bind_l.
Qed.

End WithLower.

End AppFacts.

(** ** The properties of the specification *)

Import Py Fx World App Text Scenario PyFacts FxFacts AppFacts.

(** *** The validator *)

(** C1: [validate_korean_input] returns true exactly for the strings that
    contain at least one character in U+AC00..U+D7A3, whatever else they
    contain, and false exactly for the strings with no such character
    (the empty string, whitespace, ASCII and punctuation among them). *)
Theorem validate_korean_input_iff_hangul (text : str) :
  (validate_korean_input text = true <-> exists c, In c text /\ hangul c)
  /\ (validate_korean_input text = false <->
      forall c, In c text -> ~ hangul c).
Proof.
  pose proof (validate_korean_input_spec text) as H.
  split; [exact H|].
  destruct (validate_korean_input text); split.
  - discriminate.
  - intros Hno. destruct (proj1 H eq_refl) as (c & Hin & Hc).
    now destruct (Hno c Hin).
  - intros _ c Hin Hc.
    assert (false = true) by (apply H; now exists c). discriminate.
  - reflexivity.
Qed.

Lemma validate_korean_input_iff_hangul_witness :
  validate_korean_input (lit "a 바!") = true
  /\ validate_korean_input (lit "  ") = false
  /\ validate_korean_input (lit "") = false
  /\ validate_korean_input (lit "hello, world?!") = false.
Proof.
  split; [|split; [|split]].
  - apply (proj1 (validate_korean_input_iff_hangul (lit "a 바!"))).
    exists 0xBC14. split; [in_list|unfold hangul; lia].
  - apply (proj2 (validate_korean_input_iff_hangul (lit "  "))).
    no_hangul.
  - apply (proj2 (validate_korean_input_iff_hangul (lit ""))).
    no_hangul.
  - apply (proj2 (validate_korean_input_iff_hangul (lit "hello, world?!"))).
    no_hangul.
Defined.

(** *** The prompt *)

(** C7: the prompt sent to the API is a function of the word alone: every
    call of [generate_korean_poetry] on a word makes the one request whose
    contents is [build_prompt] of that word, whatever the client and the
    runtime; and the stripped word stands in it twice, once in rule 1
    between quotes and once in the "단어:" field. *)
Theorem build_prompt_deterministic_word_twice (word : str) :
  (forall lower cl,
      trace (generate_korean_poetry lower word cl)
      = [generate_content MODEL (build_prompt word)])
  /\ build_prompt word
     = lit "당신은 한국어 행시 전문가입니다. 주어진 단어의 각 글자로 시작하는 행시를 만들어주세요.\n\n규칙:\n1. 단어 '"
       ++ strip word
       ++ lit "'의 각 글자로 시작하는 행시를 만드세요\n2. 각 행은 해당 글자를 대괄호로 감싸서 시작해야 합니다 (예: [바], [다])\n3. 각 행은 의미있고 아름다운 문장이어야 합니다\n4. 전체적으로 통일감 있는 주제나 이야기가 있으면 좋습니다\n5. 각 행은 10-20자 정도의 적당한 길이로 만드세요\n\n단어: "
       ++ strip word
       ++ lit "\n\n행시를 만들어주세요:".
Proof.
  split.
  - intros lower cl. now rewrite generate_korean_poetry_eq.
  - unfold build_prompt. cbv zeta. rewrite <- !app_assoc.
    generalize (strip word) as clean_word. intros clean_word.
    vm_compute. reflexivity.
Qed.

(** C10: the prompt does not change when the word is stripped first: the
    word goes through [strip] before both interpolations. *)
Theorem build_prompt_strip_invariant (w : str) :
  build_prompt w = build_prompt (strip w).
Proof.
  unfold build_prompt. cbv zeta. now rewrite strip_idem.
Qed.

(** *** The generation call *)

(** C8: [generate_korean_poetry] never raises: for every word and every
    client, whether its request returns a text, returns none or raises, the
    call makes that one request and returns a string. *)
Theorem generate_korean_poetry_never_raises
    (lower : str -> str) (word : str) (cl : client) :
  exists poetry,
    generate_korean_poetry lower word cl
    = ([generate_content MODEL (build_prompt word)], Value poetry).
Proof. apply generate_korean_poetry_returns. Qed.

(** C3: when the request raises an exception whose lowercased message
    contains "ascii" or "codec", the result is the encoding-error message,
    which is not the generic API-error message; for every other exception
    the result is "API 오류가 발생했습니다: " followed by the raw message. *)
Theorem generate_korean_poetry_on_exception
    (lower : str -> str) (word : str) (cl : client) (msg : str)
    (Hraise : cl MODEL (build_prompt word) = Raises msg) :
  (substring (lit "ascii") (lower msg) \/ substring (lit "codec") (lower msg) ->
   outcome (generate_korean_poetry lower word cl) = Value ENCODING_ERROR
   /\ ENCODING_ERROR <> API_ERROR ++ msg)
  /\ (~ (substring (lit "ascii") (lower msg)
         \/ substring (lit "codec") (lower msg)) ->
      outcome (generate_korean_poetry lower word cl)
      = Value (API_ERROR ++ msg)).
Proof.
  rewrite generate_korean_poetry_eq, Hraise. cbn [outcome snd].
  rewrite <- !contains_iff, <- orb_true_iff.
  destruct (contains (lit "ascii") (lower msg)
            || contains (lit "codec") (lower msg)); split.
  - intros _. split; [reflexivity|].
    intros H. apply (f_equal (fun s => nth 0 s 0)) in H.
    vm_compute in H. discriminate.
  - intros H. now destruct H.
  - discriminate.
  - reflexivity.
Qed.

Lemma generate_korean_poetry_on_exception_witness :
  outcome (generate_korean_poetry ascii_lower (lit "바다")
             (failing (lit "'ASCII' codec can't encode character")))
  = Value ENCODING_ERROR
  /\ outcome (generate_korean_poetry ascii_lower (lit "바다")
                (failing (lit "503 UNAVAILABLE")))
     = Value (API_ERROR ++ lit "503 UNAVAILABLE").
Proof.
  split.
  - apply (proj1 (generate_korean_poetry_on_exception ascii_lower (lit "바다")
             (failing (lit "'ASCII' codec can't encode character"))
             (lit "'ASCII' codec can't encode character") eq_refl)).
    left. apply contains_iff. vm_compute. reflexivity.
  - apply (proj2 (generate_korean_poetry_on_exception ascii_lower (lit "바다")
             (failing (lit "503 UNAVAILABLE")) (lit "503 UNAVAILABLE") eq_refl)).
    intros [H|H]; apply contains_iff in H; vm_compute in H; discriminate.
Defined.

(** C4: when the request returns a non-empty text, the result is that text
    stripped; when the text is empty or absent, the result is exactly
    "행시 생성에 실패했습니다. 다시 시도해주세요.", and the display shows that
    message in the error banner, not the success banner. *)
Theorem generate_korean_poetry_on_response
    (lower : str -> str) (word : str) (cl : client) (r : response)
    (w : widgets)
    (Hreturn : cl MODEL (build_prompt word) = Returns r) :
  (forall t, text r = Some t -> t <> [] ->
     outcome (generate_korean_poetry lower word cl) = Value (strip t))
  /\ (text r = Some [] \/ text r = None ->
      outcome (generate_korean_poetry lower word cl) = Value GENERATION_FAILED)
  /\ display_poetry w GENERATION_FAILED
     = ([error GENERATION_FAILED], Value tt).
Proof.
  rewrite generate_korean_poetry_eq, Hreturn. cbn [outcome snd].
  split; [|split].
  - intros t -> Ht. destruct t; [contradiction|reflexivity].
  - intros [->| ->]; reflexivity.
  - rewrite display_poetry_eq.
    replace (startswith GENERATION_FAILED (lit "행시 생성에 실패")) with true
      by (vm_compute; reflexivity).
    now rewrite andb_false_r.
Qed.

Lemma generate_korean_poetry_on_response_witness :
  outcome (generate_korean_poetry ascii_lower (lit "바다")
             (answering (Some (lit "  [바]람\n[다]정 \n"))))
  = Value (lit "[바]람\n[다]정")
  /\ outcome (generate_korean_poetry ascii_lower (lit "바다")
                (answering (Some [])))
     = Value GENERATION_FAILED
  /\ outcome (generate_korean_poetry ascii_lower (lit "바다") (answering None))
     = Value GENERATION_FAILED.
Proof.
  split; [|split].
  - change (lit "[바]람\n[다]정") with (strip (lit "  [바]람\n[다]정 \n")).
    apply (proj1 (generate_korean_poetry_on_response ascii_lower (lit "바다")
             (answering (Some (lit "  [바]람\n[다]정 \n")))
             {| text := Some (lit "  [바]람\n[다]정 \n") |}
             (submitted (lit "바다")) eq_refl)).
    + reflexivity.
    + vm_compute. discriminate.
  - apply (proj1 (proj2 (generate_korean_poetry_on_response ascii_lower
             (lit "바다") (answering (Some [])) {| text := Some [] |}
             (submitted (lit "바다")) eq_refl))).
    now left.
  - apply (proj1 (proj2 (generate_korean_poetry_on_response ascii_lower
             (lit "바다") (answering None) {| text := None |}
             (submitted (lit "바다")) eq_refl))).
    now right.
Defined.

(** *** The display *)

(** C2: the display routes the result by its prefix.  A text that begins
    with "행시 생성에 실패" or with "API 오류" is shown as an error banner.
    Every other non-empty text is split at the line breaks, its non-blank
    lines are shown in bold, one per line and in order, followed by the
    success banner.  For the word "바다" and a client that answers with the
    two lines "[바]람이 분다" and "[다]정히 웃는다", the page shows exactly
    these two poem lines and the success banner. *)
Theorem display_poetry_routes_by_prefix
    (lower : str -> str) (w : widgets) (poetry : str) :
  (begins_with (lit "행시 생성에 실패") poetry
   \/ begins_with (lit "API 오류") poetry ->
   display_poetry w poetry = ([error poetry], Value tt))
  /\ (poetry <> [] ->
      ~ begins_with (lit "행시 생성에 실패") poetry ->
      ~ begins_with (lit "API 오류") poetry ->
      trace (display_poetry w poetry)
      = map poem_line (filter nonblank (split 10 poetry))
        ++ [markdown (lit "---"); success SUCCESS; button REGENERATE])
  /\ submit lower (answering (Some (lit "[바]람이 분다\n[다]정히 웃는다")))
       (submitted (lit "바다"))
     = ([spinner (lit "'바다' 행시를 생성하고 있습니다...");
         generate_content MODEL (build_prompt (lit "바다"));
         subheader (lit "생성된 행시");
         container;
         markdown (lit "---");
         markdown (lit "**주제어:** 바다");
         markdown (lit "");
         markdown (lit "**[바]람이 분다**");
         markdown (lit "**[다]정히 웃는다**");
         markdown (lit "---");
         success SUCCESS;
         button REGENERATE],
        Value tt).
Proof.
  split; [|split].
  - rewrite <- !startswith_iff, display_poetry_eq.
    intros [-> | ->]; cbn [negb]; now rewrite ?andb_false_r.
  - rewrite <- truthy_iff, <- !startswith_false_iff, display_poetry_eq.
    now intros -> -> ->.
  - vm_compute. reflexivity.
Qed.

Lemma display_poetry_routes_by_prefix_witness :
  display_poetry (submitted (lit "바다")) (lit "API 오류가 발생했습니다: timeout")
  = ([error (lit "API 오류가 발생했습니다: timeout")], Value tt)
  /\ trace (display_poetry (submitted (lit "바다")) (lit "[바]람\n \n[다]정"))
     = [markdown (lit "**[바]람**"); markdown (lit "**[다]정**");
        markdown (lit "---"); success SUCCESS; button REGENERATE].
Proof.
  split.
  - apply (proj1 (display_poetry_routes_by_prefix ascii_lower
                    (submitted (lit "바다"))
                    (lit "API 오류가 발생했습니다: timeout"))).
    right. apply startswith_iff. vm_compute. reflexivity.
  - change [markdown (lit "**[바]람**"); markdown (lit "**[다]정**");
            markdown (lit "---"); success SUCCESS; button REGENERATE]
      with (map poem_line (filter nonblank (split 10 (lit "[바]람\n \n[다]정")))
            ++ [markdown (lit "---"); success SUCCESS; button REGENERATE]).
    apply (proj1 (proj2 (display_poetry_routes_by_prefix ascii_lower
                           (submitted (lit "바다")) (lit "[바]람\n \n[다]정")))).
    + vm_compute. discriminate.
    + apply startswith_false_iff. vm_compute. reflexivity.
    + apply startswith_false_iff. vm_compute. reflexivity.
Defined.

(** C9: the encoding-error message begins with neither prefix the display
    tests.  So when the request raises an exception whose lowercased message
    contains "ascii" or "codec", generating and then displaying shows the
    encoding-error message as a bold poem line followed by the success
    banner, and shows no error banner. *)
Theorem encoding_error_displayed_as_poem
    (lower : str -> str) (word : str) (cl : client) (msg : str) (w : widgets)
    (Hraise : cl MODEL (build_prompt word) = Raises msg)
    (Hencoding : substring (lit "ascii") (lower msg)
                 \/ substring (lit "codec") (lower msg)) :
  ~ begins_with (lit "행시 생성에 실패") ENCODING_ERROR
  /\ ~ begins_with (lit "API 오류") ENCODING_ERROR
  /\ trace (poetry <- generate_korean_poetry lower word cl ;;
            display_poetry w poetry)%script
     = [generate_content MODEL (build_prompt word);
        markdown (lit "**한글 처리 오류가 발생했습니다. 잠시 후 다시 시도해주세요.**");
        markdown (lit "---");
        success SUCCESS;
        button REGENERATE]
  /\ forall body,
       ~ In (error body)
            (trace (poetry <- generate_korean_poetry lower word cl ;;
                    display_poetry w poetry)%script).
Proof.
  assert (Hshow : trace (poetry <- generate_korean_poetry lower word cl ;;
                         display_poetry w poetry)%script
                  = [generate_content MODEL (build_prompt word);
                     markdown (lit "**한글 처리 오류가 발생했습니다. 잠시 후 다시 시도해주세요.**");
                     markdown (lit "---");
                     success SUCCESS;
                     button REGENERATE]).
  { rewrite generate_korean_poetry_eq, Hraise.
    rewrite <- !contains_iff, <- orb_true_iff in Hencoding.
    rewrite Hencoding.
    erewrite trace_bind_value by reflexivity.
    rewrite display_poetry_eq. cbn [trace fst app]. f_equal;
    vm_compute; reflexivity. }
  split; [|split; [|split]].
  - apply startswith_false_iff. vm_compute. reflexivity.
  - apply startswith_false_iff. vm_compute. reflexivity.
  - exact Hshow.
  - intros body. rewrite Hshow. intros H.
    repeat (destruct H as [H|H]; [discriminate|]). exact H.
Qed.

Lemma encoding_error_displayed_as_poem_witness :
  In (success SUCCESS)
     (trace (poetry <- generate_korean_poetry ascii_lower (lit "바다")
                         (failing (lit "'ascii' codec can't encode")) ;;
             display_poetry (submitted (lit "바다")) poetry)%script).
Proof.
  assert (Hencoding :
            substring (lit "ascii")
              (ascii_lower (lit "'ascii' codec can't encode"))
            \/ substring (lit "codec")
                 (ascii_lower (lit "'ascii' codec can't encode"))).
  { left. apply contains_iff. vm_compute. reflexivity. }
  rewrite (proj1 (proj2 (proj2 (encoding_error_displayed_as_poem ascii_lower
             (lit "바다") (failing (lit "'ascii' codec can't encode"))
             (lit "'ascii' codec can't encode") (submitted (lit "바다"))
             eq_refl Hencoding)))).
  do 3 right. left. reflexivity.
Defined.

(** *** The submit flow *)

(** C5: whenever a run of the page makes a generation request, the button
    was clicked and the word has passed validation: the stripped input is 2
    to 10 characters long and contains a Hangul syllable (U+AC00..U+D7A3);
    the request is for the fixed model, with the prompt of that word. *)
Theorem request_only_for_validated_word
    (lower : str -> str) (env : environment) (w : widgets)
    (model contents : str)
    (Hrequest : In (generate_content model contents)
                   (trace (main lower env w))) :
  generate_button w = true
  /\ validate_korean_input (user_input w) = true
  /\ (2 <= List.length (strip (user_input w)) <= 10)%nat
  /\ (exists c, In c (strip (user_input w)) /\ hangul c)
  /\ model = MODEL
  /\ contents = build_prompt (strip (user_input w)).
Proof.
  apply main_request in Hrequest as (cl & H).
  apply submit_request in H as (Hclick & (Hval & Hlen) & Hmodel & Hcontents).
  repeat split; try assumption; try lia.
  now apply validate_true_strip.
Qed.

Lemma request_only_for_validated_word_witness :
  In (generate_content MODEL (build_prompt (lit "바다")))
     (trace (main ascii_lower (ready (answering (Some (lit "[바]\n[다]"))))
               (submitted (lit " 바다 "))))
  /\ (2 <= List.length (strip (lit " 바다 ")) <= 10)%nat.
Proof.
  assert (Hrequest :
            In (generate_content MODEL (build_prompt (lit "바다")))
               (trace (main ascii_lower
                         (ready (answering (Some (lit "[바]\n[다]"))))
                         (submitted (lit " 바다 ")))))
    by in_list.
  split; [exact Hrequest|].
  exact (proj1 (proj2 (proj2
           (request_only_for_validated_word ascii_lower
              (ready (answering (Some (lit "[바]\n[다]"))))
              (submitted (lit " 바다 ")) _ _ Hrequest)))).
Defined.

(** C6: after a click on a word that has a Hangul syllable, if the stripped
    word has one character the page shows the "2자 이상" messages (the
    inline warning and the error of the submit flow) and makes no request;
    if it has eleven characters or more the page shows the "10자 이하"
    messages and makes no request. *)
Theorem submit_rejects_bad_length
    (lower : str -> str) (env : environment) (cl : client) (w : widgets)
    (Hclient : outcome (get_gemini_client env) = Value cl)
    (Hclick : generate_button w = true)
    (Hkorean : validate_korean_input (user_input w) = true) :
  (List.length (strip (user_input w)) = 1%nat ->
   submit lower cl w = ([error (lit "2자 이상의 단어를 입력해주세요.")], Value tt)
   /\ In (warning (lit "⚠️ 2자 이상의 단어를 입력해주세요."))
         (trace (main lower env w))
   /\ In (error (lit "2자 이상의 단어를 입력해주세요."))
         (trace (main lower env w))
   /\ forall model contents,
        ~ In (generate_content model contents) (trace (main lower env w)))
  /\ ((11 <= List.length (strip (user_input w)))%nat ->
      submit lower cl w = ([error (lit "10자 이하의 단어를 입력해주세요.")], Value tt)
      /\ In (warning (lit "⚠️ 10자 이하의 단어를 입력해주세요."))
            (trace (main lower env w))
      /\ In (error (lit "10자 이하의 단어를 입력해주세요."))
            (trace (main lower env w))
      /\ forall model contents,
           ~ In (generate_content model contents) (trace (main lower env w))).
Proof.
  pose proof (validate_true_nonblank _ Hkorean) as Hnonblank.
  assert (Htruthy : truthy (user_input w) = true).
  { apply orb_false_iff in Hnonblank as [H _].
    now apply negb_false_iff in H. }
  split; intros Hlen.
  - assert (Hsubmit : submit lower cl w
                      = ([error (lit "2자 이상의 단어를 입력해주세요.")], Value tt)).
    { unfold submit. cbv zeta.
      rewrite Hclick, Hnonblank, Hkorean, Hlen. reflexivity. }
    assert (Hinline : display_input_validation w
                      = ([warning (lit "⚠️ 2자 이상의 단어를 입력해주세요.")],
                         Value tt)).
    { unfold display_input_validation. cbv zeta.
      rewrite Htruthy, Hkorean, Hlen. reflexivity. }
    split; [exact Hsubmit|]. split; [|split].
    + apply (main_shows lower env cl w _ Hclient). left.
      rewrite Hinline. now left.
    + apply (main_shows lower env cl w _ Hclient). right.
      rewrite Hsubmit. now left.
    + intros model contents H.
      apply main_request in H as (cl' & H).
      apply submit_request in H as (_ & (_ & Hbound) & _). lia.
  - assert (Hlong : (10 <? Z.of_nat (List.length (strip (user_input w)))) = true)
      by (apply Z.ltb_lt; lia).
    assert (Hsubmit : submit lower cl w
                      = ([error (lit "10자 이하의 단어를 입력해주세요.")], Value tt)).
    { unfold submit. cbv zeta.
      rewrite Hclick, Hnonblank, Hkorean, Hlong. reflexivity. }
    assert (Hinline : display_input_validation w
                      = ([warning (lit "⚠️ 10자 이하의 단어를 입력해주세요.")],
                         Value tt)).
    { unfold display_input_validation. cbv zeta.
      rewrite Htruthy, Hkorean, Hlong. reflexivity. }
    split; [exact Hsubmit|]. split; [|split].
    + apply (main_shows lower env cl w _ Hclient). left.
      rewrite Hinline. now left.
    + apply (main_shows lower env cl w _ Hclient). right.
      rewrite Hsubmit. now left.
    + intros model contents H.
      apply main_request in H as (cl' & H).
      apply submit_request in H as (_ & (_ & Hbound) & _). lia.
Qed.

Lemma submit_rejects_bad_length_witness :
  submit ascii_lower (answering None) (submitted (lit "바"))
  = ([error (lit "2자 이상의 단어를 입력해주세요.")], Value tt)
  /\ submit ascii_lower (answering None) (submitted (lit "가나다라마바사아자차카"))
     = ([error (lit "10자 이하의 단어를 입력해주세요.")], Value tt).
Proof.
  assert (Hclient : outcome (get_gemini_client (ready (answering None)))
                    = Value (answering None))
    by (vm_compute; reflexivity).
  split.
  - apply (proj1 (submit_rejects_bad_length ascii_lower
                    (ready (answering None)) (answering None)
                    (submitted (lit "바")) Hclient eq_refl
                    ltac:(vm_compute; reflexivity))).
    vm_compute. reflexivity.
  - apply (proj2 (submit_rejects_bad_length ascii_lower
                    (ready (answering None)) (answering None)
                    (submitted (lit "가나다라마바사아자차카")) Hclient eq_refl
                    ltac:(vm_compute; reflexivity))).
    vm_compute. lia.
Defined.

(** ** The whole page *)

Module PageFacts.

Import Py Fx World App Text Page PyFacts FxFacts AppFacts.
Local Open Scope script_scope.

Lemma get_gemini_client_status env : client_status env (get_gemini_client env).
Proof.
  unfold get_gemini_client. cbv zeta.
  destruct (GEMINI_API_KEY env) as [[|k key]|] eqn:Hkey.
  - apply no_key. now right.
  - destruct (genai_Client env (k :: key)) as [cl|msg] eqn:Hcl.
    + now apply (client_ready env (k :: key) cl).
    + now apply (construction_fails env (k :: key) msg).
  - apply no_key. now left.
Qed.

Lemma get_gemini_client_cases env :
  (GEMINI_API_KEY env = None \/ GEMINI_API_KEY env = Some [])
  \/ (exists key msg,
        GEMINI_API_KEY env = Some key /\ key <> []
        /\ genai_Client env key = Raises msg)
  \/ (exists key cl,
        GEMINI_API_KEY env = Some key /\ key <> []
        /\ genai_Client env key = Returns cl
        /\ get_gemini_client env = ([], Value cl)).
Proof.
  unfold get_gemini_client. cbv zeta.
  destruct (GEMINI_API_KEY env) as [[|k key]|] eqn:Hkey.
  - left. now right.
  - destruct (genai_Client env (k :: key)) as [cl|msg] eqn:Hcl.
    + right; right. exists (k :: key), cl. rewrite Hcl.
      repeat split; try reflexivity. discriminate.
    + right; left. exists (k :: key), msg. repeat split; try assumption.
      discriminate.
  - left. now left.
Qed.

Lemma get_gemini_client_value env cl :
  outcome (get_gemini_client env) = Value cl ->
  get_gemini_client env = ([], Value cl).
Proof.
  destruct (get_gemini_client_status env) as [H|key msg _ _ _|key cl' _ _ _];
    cbn [outcome snd]; intros Heq; try discriminate.
  now injection Heq as ->.
Qed.

(** *** Rejected and accepted inputs *)

Lemma strip_nonempty_input (s : str) : strip s <> [] -> s <> [].
Proof. intros H ->. now apply H. Qed.

Lemma blank_test (s : str) :
  negb (truthy s) || negb (truthy (strip s)) = true <-> strip s = [].
Proof.
  destruct s as [|c s]; [now split|]. cbn [truthy negb orb].
  destruct (strip (c :: s)); cbn [truthy negb]; split; congruence.
Qed.

Lemma validate_blank (s : str) :
  strip s = [] -> validate_korean_input s = false.
Proof.
  intros H. unfold validate_korean_input.
  now rewrite (proj2 (blank_test s) H).
Qed.

Lemma rejection_or_accepted (s : str) :
  accepted s \/ exists m, rejection s m.
Proof.
  destruct (strip s) as [|c r] eqn:Hs.
  { right. eexists. now apply blank. }
  assert (Hne : strip s <> []) by (rewrite Hs; discriminate).
  clear Hs.
  destruct (validate_korean_input s) eqn:Hval.
  - destruct (le_lt_dec (List.length (strip s)) 10) as [Hle|Hgt].
    + destruct (le_lt_dec 2 (List.length (strip s))) as [Hge|Hlt].
      * left. split; [exact Hval|lia].
      * right. eexists. now apply too_short.
    + right. eexists. now apply too_long.
  - right. eexists. now apply not_korean.
Qed.

Lemma rejection_not_accepted (s m : str) : rejection s m -> ~ accepted s.
Proof.
  intros [Hs|_ Hval|_ Hlen|_ Hlen] [Hacc Hbound]; try lia; try congruence.
  rewrite (validate_blank _ Hs) in Hacc. discriminate.
Qed.

(** The message of a rejection is determined by the input. *)
Lemma rejection_unique (s m m' : str) :
  rejection s m -> rejection s m' -> m = m'.
Proof.
  intros [Hs|Hne Hval|Hval Hlen|Hval Hlen]
         [Hs'|Hne' Hval'|Hval' Hlen'|Hval' Hlen'];
    first [ exfalso;
            solve [ contradiction
                  | lia
                  | rewrite Hval in Hval'; discriminate
                  | rewrite (validate_blank _ Hs) in *; discriminate
                  | rewrite (validate_blank _ Hs') in *; discriminate ]
          | reflexivity ].
Qed.

(** *** The inline validation *)

Lemma display_input_validation_empty (w : widgets) :
  user_input w = [] -> display_input_validation w = ret tt.
Proof. unfold display_input_validation. cbv zeta. now intros ->. Qed.

Lemma display_input_validation_accepted (w : widgets) :
  accepted (user_input w) -> display_input_validation w = ret tt.
Proof.
  intros (Hval & Hlen). unfold display_input_validation. cbv zeta.
  rewrite Hval. cbn [negb].
  destruct (truthy (user_input w)); [|reflexivity].
  destruct (10 <? _) eqn:E1; [apply Z.ltb_lt in E1; exfalso; lia|].
  destruct (_ <? 2) eqn:E2; [apply Z.ltb_lt in E2; exfalso; lia|].
  reflexivity.
Qed.

Lemma display_input_validation_blank (w : widgets) :
  user_input w <> [] -> strip (user_input w) = [] ->
  display_input_validation w
  = ([warning (lit "⚠️ 한국어 단어를 입력해주세요.")], Value tt).
Proof.
  intros Hne Hs. unfold display_input_validation. cbv zeta.
  rewrite (proj2 (truthy_iff _) Hne), (validate_blank _ Hs). reflexivity.
Qed.

Lemma display_input_validation_rejected (w : widgets) (m : str) :
  strip (user_input w) <> [] -> rejection (user_input w) m ->
  display_input_validation w = ([warning (lit "⚠️ " ++ m)], Value tt).
Proof.
  intros Hne Hrej. unfold display_input_validation. cbv zeta.
  rewrite (proj2 (truthy_iff _) (strip_nonempty_input _ Hne)).
  destruct Hrej as [Hs|_ Hval|Hval Hlen|Hval Hlen].
  - contradiction.
  - rewrite Hval. cbn [negb]. unfold st_warning. do 3 f_equal.
    vm_compute. reflexivity.
  - rewrite Hval. cbn [negb].
    destruct (10 <? _) eqn:E1; [|apply Z.ltb_ge in E1; exfalso; lia].
    unfold st_warning. do 3 f_equal. vm_compute. reflexivity.
  - rewrite Hval. cbn [negb].
    destruct (10 <? _) eqn:E1; [apply Z.ltb_lt in E1; exfalso; lia|].
    destruct (_ <? 2) eqn:E2; [|apply Z.ltb_ge in E2; exfalso; lia].
    unfold st_warning. do 3 f_equal. vm_compute. reflexivity.
Qed.

(** *** The display *)

Lemma failure_text_iff (poetry : str) :
  truthy poetry
  && negb (startswith poetry (lit "행시 생성에 실패"))
  && negb (startswith poetry (lit "API 오류")) = false
  <-> failure_text poetry.
Proof.
  unfold failure_text. rewrite <- !startswith_iff.
  destruct poetry as [|c poetry]; cbn [truthy andb].
  - split; [now left|reflexivity].
  - destruct (startswith (c :: poetry) (lit "행시 생성에 실패"));
      destruct (startswith (c :: poetry) (lit "API 오류"));
      cbn [negb andb]; split; intros H;
      first [ discriminate H
            | reflexivity
            | now (right; left)
            | now (right; right)
            | destruct H as [H|[H|H]]; discriminate H ].
Qed.

Lemma display_poetry_failure (w : widgets) (poetry : str) :
  failure_text poetry -> display_poetry w poetry = ([error poetry], Value tt).
Proof.
  intros H. rewrite display_poetry_eq.
  now rewrite (proj2 (failure_text_iff poetry) H).
Qed.

Lemma display_poetry_success (w : widgets) (poetry : str) :
  ~ failure_text poetry ->
  display_poetry w poetry
  = (map poem_line (filter nonblank (split 10 poetry))
       ++ [markdown (lit "---"); success SUCCESS; button REGENERATE],
     if regenerate_button w then Halt Rerun else Value tt).
Proof.
  intros H. rewrite display_poetry_eq.
  destruct (truthy poetry && _ && _) eqn:E; [reflexivity|].
  now apply failure_text_iff in E.
Qed.

Lemma failure_text_dec (poetry : str) :
  failure_text poetry \/ ~ failure_text poetry.
Proof.
  rewrite <- failure_text_iff.
  destruct (truthy poetry && _ && _); [right; discriminate|left; reflexivity].
Qed.

(** *** The ends of a stripped string *)

Lemma drop_while_head p (s : str) c r :
  drop_while p s = c :: r -> p c = false.
Proof.
  induction s as [|x s IH]; cbn [drop_while]; [discriminate|].
  destruct (p x) eqn:E; [exact IH|]. now intros [= <- _].
Qed.

Lemma strip_head (s : str) c r : strip s = c :: r -> isspace c = false.
Proof.
  unfold strip. destruct (lstrip s) as [|c0 r0] eqn:E; [discriminate|].
  pose proof (drop_while_head _ _ _ _ E) as Hc0.
  rewrite rstrip_cons by exact Hc0. now intros [= <- _].
Qed.

Lemma strip_last (s : str) r c : strip s = r ++ [c] -> isspace c = false.
Proof.
  unfold strip, rstrip. intros H.
  apply (f_equal (@rev char)) in H.
  rewrite rev_involutive, rev_app_distr in H. cbn [rev app] in H.
  now apply drop_while_head in H.
Qed.

Lemma hangul_strip_iff (s : str) :
  (exists c, In c (strip s) /\ hangul c) <-> (exists c, In c s /\ hangul c).
Proof.
  split; intros (c & Hin & Hc); exists c; (split; [|exact Hc]).
  - now apply strip_incl.
  - apply in_strip; [exact Hin|]. apply hangul_not_space.
    now apply between_iff.
Qed.

Lemma ascii_lower_app (s t : str) :
  ascii_lower (s ++ t) = ascii_lower s ++ ascii_lower t.
Proof. apply map_app. Qed.

(** *** Requests in a trace *)

Lemma requests_app (t t' : list effect) :
  requests (t ++ t') = requests t ++ requests t'.
Proof. apply filter_app. Qed.

Lemma requests_none (t : list effect) :
  (forall model contents, ~ In (generate_content model contents) t) ->
  requests t = [].
Proof.
  induction t as [|e t IH]; intros H; [reflexivity|].
  unfold requests in *. cbn [filter].
  destruct e; cbn [is_request];
    try (apply IH; intros m c Hin; apply (H m c); now right).
  exfalso. apply (H model contents). now left.
Qed.

Lemma requests_fixed_parts :
  requests page_head = [] /\ requests input_section = []
  /\ requests page_foot = [].
Proof. repeat split. Qed.

Lemma requests_result_head (clean_word : str) :
  requests (result_head clean_word)
  = [generate_content MODEL (build_prompt clean_word)].
Proof. reflexivity. Qed.

Section WithLower.

Variable lower : str -> str.

Lemma main_no_key env w :
  GEMINI_API_KEY env = None \/ GEMINI_API_KEY env = Some [] ->
  main lower env w
  = (page_head
       ++ [error (lit "GEMINI_API_KEY 환경변수가 설정되지 않았습니다.")],
     Halt Stop).
Proof.
  intros Hkey. unfold main, get_gemini_client. cbv zeta.
  destruct Hkey as [-> | ->]; reflexivity.
Qed.

Lemma main_construction_fails env w key msg :
  GEMINI_API_KEY env = Some key -> key <> [] ->
  genai_Client env key = Raises msg ->
  main lower env w
  = (page_head ++ [error (lit "Gemini API 초기화 실패: " ++ msg)], Halt Stop).
Proof.
  intros Hkey Hne Hcl. unfold main, get_gemini_client. cbv zeta.
  rewrite Hkey. destruct key as [|k key]; [contradiction|].
  rewrite Hcl. reflexivity.
Qed.

(** With a client, the page is the head, the form, the inline validation,
    what [submit] shows and, unless [submit] left the script, the footer. *)
Lemma main_with_client env cl w :
  get_gemini_client env = ([], Value cl) ->
  main lower env w
  = (page_head ++ input_section
       ++ trace (display_input_validation w)
       ++ trace (submit lower cl w)
       ++ match outcome (submit lower cl w) with
          | Value _ => page_foot
          | _ => []
          end,
     outcome (submit lower cl w)).
Proof.
  intros Hcl. unfold main. rewrite Hcl.
  cbv [bind try_except emit ret st_markdown st_subheader].
  pose proof (display_input_validation_returns w) as Hinline.
  destruct (display_input_validation w) as [t1 r1].
  cbn [outcome snd] in Hinline. subst r1.
  destruct (submit lower cl w) as [t2 [[]|msg|c]];
    cbv [trace outcome fst snd page_head input_section page_foot];
    cbn [app]; rewrite <- ?app_assoc, ?app_nil_r; reflexivity.
Qed.

(** *** The submit flow *)

Lemma submit_not_clicked cl w :
  generate_button w = false -> submit lower cl w = ret tt.
Proof. unfold submit. cbv zeta. now intros ->. Qed.

Lemma submit_rejected cl w m :
  generate_button w = true -> rejection (user_input w) m ->
  submit lower cl w = ([error m], Value tt).
Proof.
  intros Hclick Hrej. unfold submit. cbv zeta. rewrite Hclick.
  destruct Hrej as [Hs|Hne Hval|Hval Hlen|Hval Hlen].
  - now rewrite (proj2 (blank_test _) Hs).
  - destruct (negb (truthy (user_input w)) || _) eqn:E;
      [apply blank_test in E; contradiction|].
    rewrite Hval. reflexivity.
  - rewrite (validate_true_nonblank _ Hval), Hval. cbn [negb].
    destruct (10 <? _) eqn:E1; [reflexivity|].
    apply Z.ltb_ge in E1. exfalso. lia.
  - rewrite (validate_true_nonblank _ Hval), Hval. cbn [negb].
    destruct (10 <? _) eqn:E1; [apply Z.ltb_lt in E1; exfalso; lia|].
    destruct (_ <? 2) eqn:E2; [reflexivity|].
    apply Z.ltb_ge in E2. exfalso. lia.
Qed.

(** An accepted word after a click: the request, then the result area. *)
Lemma submit_accepted_eq cl w :
  generate_button w = true -> accepted (user_input w) ->
  exists poetry,
    generate_korean_poetry lower (strip (user_input w)) cl
    = ([generate_content MODEL (build_prompt (strip (user_input w)))],
       Value poetry)
    /\ submit lower cl w
       = (result_head (strip (user_input w))
            ++ trace (display_poetry w poetry),
          outcome (display_poetry w poetry)).
Proof.
  intros Hclick Hacc. rewrite (submit_accepted lower cl w Hclick Hacc).
  destruct (generate_korean_poetry_returns lower (strip (user_input w)) cl)
    as (poetry & Hgen).
  exists poetry. split; [exact Hgen|]. cbv zeta. rewrite Hgen.
  cbv [bind emit ret st_markdown st_subheader result_head].
  destruct (display_poetry w poetry) as [t r]. reflexivity.
Qed.

(** [submit] returns, or reruns after a successful display. *)
Lemma submit_outcome cl w :
  outcome (submit lower cl w) = Value tt
  \/ (outcome (submit lower cl w) = Halt Rerun
      /\ generate_button w = true /\ regenerate_button w = true
      /\ accepted (user_input w)
      /\ In (success SUCCESS) (trace (submit lower cl w))).
Proof.
  destruct (generate_button w) eqn:Hclick;
    [|left; now rewrite submit_not_clicked].
  destruct (rejection_or_accepted (user_input w)) as [Hacc|(m & Hrej)];
    [|left; now rewrite (submit_rejected cl w m Hclick Hrej)].
  destruct (submit_accepted_eq cl w Hclick Hacc) as (poetry & _ & ->).
  cbn [outcome trace fst snd].
  destruct (failure_text_dec poetry) as [Hf|Hs].
  - left. now rewrite (display_poetry_failure w poetry Hf).
  - rewrite (display_poetry_success w poetry Hs). cbn [outcome trace fst snd].
    destruct (regenerate_button w); [right|now left].
    do 3 (split; [reflexivity|]). split; [exact Hacc|].
    apply in_or_app. right. apply in_or_app. right. right. now left.
Qed.

(** The requests of [submit]: one for an accepted word after a click. *)
Lemma submit_requests cl w :
  (generate_button w = true -> accepted (user_input w) ->
   requests (trace (submit lower cl w))
   = [generate_content MODEL (build_prompt (strip (user_input w)))])
  /\ (generate_button w = false \/ ~ accepted (user_input w) ->
      requests (trace (submit lower cl w)) = []).
Proof.
  split.
  - intros Hclick Hacc.
    destruct (submit_accepted_eq cl w Hclick Hacc) as (poetry & _ & ->).
    cbn [trace fst]. rewrite requests_app, requests_result_head.
    rewrite (requests_none (trace (display_poetry w poetry)));
      [reflexivity|].
    intros m c. apply display_poetry_no_request.
  - intros H. apply requests_none. intros m c Hin.
    apply submit_request in Hin as (Hclick & Hacc & _).
    destruct H as [H|H]; [congruence|contradiction].
Qed.

Lemma main_requests env cl w :
  get_gemini_client env = ([], Value cl) ->
  requests (trace (main lower env w)) = requests (trace (submit lower cl w)).
Proof.
  intros Hcl. rewrite (main_with_client env cl w Hcl). cbn [trace fst].
  destruct requests_fixed_parts as (Hh & Hi & Hf).
  rewrite !requests_app, Hh, Hi.
  rewrite (requests_none (trace (display_input_validation w)))
    by (intros m c; apply display_input_validation_no_request).
  cbn [app].
  destruct (outcome (submit lower cl w)); [rewrite Hf|..];
    now rewrite app_nil_r.
Qed.

(** The footer's HTML is shown by nothing but the footer. *)
Lemma display_input_validation_only_warnings w e :
  In e (trace (display_input_validation w)) -> exists body, e = warning body.
Proof.
  unfold display_input_validation. cbv zeta.
  repeat match goal with
         | |- context [if ?b then _ else _] => destruct b
         end; cbn [trace fst st_warning emit ret]; intros H;
    repeat (destruct H as [<-|H]; [eexists; reflexivity|]); contradiction.
Qed.

Lemma display_poetry_no_html w poetry body :
  ~ In (markdown_html body) (trace (display_poetry w poetry)).
Proof.
  rewrite display_poetry_eq.
  destruct (truthy poetry && _ && _); cbn [trace fst]; intros H.
  - apply in_app_or in H as [H|H].
    + apply in_map_iff in H as (line & Hline & _). discriminate.
    + repeat (destruct H as [H|H]; [discriminate|]). exact H.
  - destruct H as [H|[]]. discriminate.
Qed.

Lemma submit_no_html cl w body :
  ~ In (markdown_html body) (trace (submit lower cl w)).
Proof.
  destruct (generate_button w) eqn:Hclick;
    [|rewrite submit_not_clicked by exact Hclick; intros []].
  destruct (rejection_or_accepted (user_input w)) as [Hacc|(m & Hrej)].
  - destruct (submit_accepted_eq cl w Hclick Hacc) as (poetry & _ & ->).
    cbn [trace fst]. intros H. apply in_app_or in H as [H|H].
    + repeat (destruct H as [H|H]; [discriminate|]). exact H.
    + now apply display_poetry_no_html in H.
  - rewrite (submit_rejected cl w m Hclick Hrej). intros [H|[]].
    discriminate.
Qed.

(** With a client, the footer's HTML is in the trace exactly when
    [submit] returned. *)
Lemma main_html env cl w body :
  get_gemini_client env = ([], Value cl) ->
  In (markdown_html body) (trace (main lower env w)) ->
  outcome (submit lower cl w) = Value tt /\ In (markdown_html body) page_foot.
Proof.
  intros Hcl. rewrite (main_with_client env cl w Hcl). cbn [trace fst].
  intros H.
  apply in_app_or in H as [H|H];
    [repeat (destruct H as [H|H]; [discriminate|]); contradiction|].
  apply in_app_or in H as [H|H];
    [repeat (destruct H as [H|H]; [discriminate|]); contradiction|].
  apply in_app_or in H as [H|H].
  { apply display_input_validation_only_warnings in H as (b & H).
    discriminate. }
  apply in_app_or in H as [H|H]; [now apply submit_no_html in H|].
  destruct (outcome (submit lower cl w)) as [[]|msg|c];
    [now split|contradiction|contradiction].
Qed.

End WithLower.

End PageFacts.

(** ** Further properties of app.py *)

Import Page Worlds PageFacts.

(** *** Start-up *)

(** X1: without a credential (the variable unset or empty) the page shows
    its head and the configuration error, then stops: no form, no button,
    no request, no footer. *)
Theorem main_without_credential
    (lower : str -> str) (env : environment) (w : widgets)
    (Hkey : GEMINI_API_KEY env = None \/ GEMINI_API_KEY env = Some []) :
  main lower env w
  = (page_head
       ++ [error (lit "GEMINI_API_KEY 환경변수가 설정되지 않았습니다.")],
     Halt Stop).
Proof. now apply main_no_key. Qed.

Lemma main_without_credential_witness :
  outcome (main ascii_lower no_credential (submitted (lit "바다")))
  = Halt Stop.
Proof.
  rewrite (main_without_credential ascii_lower no_credential
             (submitted (lit "바다")) (or_introl eq_refl)).
  reflexivity.
Defined.

(** X2: when the SDK raises while the client is built, the page shows
    "Gemini API 초기화 실패: " followed by the exception's message, then
    stops: the exception does not leave [main]. *)
Theorem main_client_construction_fails
    (lower : str -> str) (env : environment) (w : widgets) (key msg : str)
    (Hkey : GEMINI_API_KEY env = Some key) (Hnonempty : key <> [])
    (Hraise : genai_Client env key = Raises msg) :
  main lower env w
  = (page_head ++ [error (lit "Gemini API 초기화 실패: " ++ msg)], Halt Stop).
Proof. now apply main_construction_fails with (key := key). Qed.

Lemma main_client_construction_fails_witness :
  outcome (main ascii_lower (broken_sdk (lit "invalid key"))
             (submitted (lit "바다")))
  = Halt Stop.
Proof.
  assert (Hnonempty : lit "key" <> []) by (vm_compute; discriminate).
  rewrite (main_client_construction_fails ascii_lower
             (broken_sdk (lit "invalid key")) (submitted (lit "바다"))
             (lit "key") (lit "invalid key") eq_refl Hnonempty eq_refl).
  reflexivity.
Defined.

(** X3: [main] never ends in a raised exception, whatever the environment,
    the client and the widgets do: it returns, stops or reruns. *)
Theorem main_never_raises
    (lower : str -> str) (env : environment) (w : widgets) :
  outcome (main lower env w) = Value tt
  \/ outcome (main lower env w) = Halt Stop
  \/ outcome (main lower env w) = Halt Rerun.
Proof.
  destruct (get_gemini_client_cases env)
    as [Hkey|[(key & msg & Hkey & Hne & Hcl)|(key & cl & _ & _ & _ & Hget)]].
  - right; left. now rewrite (main_no_key lower env w Hkey).
  - right; left.
    now rewrite (main_construction_fails lower env w key msg Hkey Hne Hcl).
  - rewrite (main_with_client lower env cl w Hget). cbn [outcome snd].
    destruct (submit_outcome lower cl w) as [H|(H & _)]; rewrite H; auto.
Qed.

(** X4: the page stops exactly when no client can be had: the credential
    is unset or empty, or the SDK raises while building the client. *)
Theorem main_stops_iff_no_client
    (lower : str -> str) (env : environment) (w : widgets) :
  outcome (main lower env w) = Halt Stop
  <-> (GEMINI_API_KEY env = None \/ GEMINI_API_KEY env = Some []
       \/ exists key msg,
            GEMINI_API_KEY env = Some key
            /\ genai_Client env key = Raises msg).
Proof.
  destruct (get_gemini_client_cases env)
    as [Hkey|[(key & msg & Hkey & Hne & Hcl)|(key & cl & Hkey & Hne & Hcl & Hget)]].
  - rewrite (main_no_key lower env w Hkey). split; [intros _|reflexivity].
    destruct Hkey; auto.
  - rewrite (main_construction_fails lower env w key msg Hkey Hne Hcl).
    split; [intros _|reflexivity]. right; right. now exists key, msg.
  - rewrite (main_with_client lower env cl w Hget). cbn [outcome snd]. split.
    + intros H. destruct (submit_outcome lower cl w) as [H'|(H' & _)];
        rewrite H' in H; discriminate.
    + intros [H|[H|(key' & msg & Hkey' & Hcl')]]; congruence.
Qed.

(** *** Runs with a client *)

(** X5: the page reruns only when the generate button was clicked on an
    accepted word, the result was shown with the success banner and the
    regenerate button was clicked; the footer is not shown in that run. *)
Theorem main_reruns_only_after_success
    (lower : str -> str) (env : environment) (w : widgets)
    (Hrerun : outcome (main lower env w) = Halt Rerun) :
  generate_button w = true /\ regenerate_button w = true
  /\ accepted (user_input w)
  /\ In (success SUCCESS) (trace (main lower env w))
  /\ forall body, ~ In (markdown_html body) (trace (main lower env w)).
Proof.
  destruct (get_gemini_client_cases env)
    as [Hkey|[(key & msg & Hkey & Hne & Hcl)|(key & cl & _ & _ & _ & Hget)]].
  - rewrite (main_no_key lower env w Hkey) in Hrerun. discriminate.
  - rewrite (main_construction_fails lower env w key msg Hkey Hne Hcl)
      in Hrerun. discriminate.
  - rewrite (main_with_client lower env cl w Hget) in *.
    cbn [outcome trace fst snd] in *.
    destruct (submit_outcome lower cl w)
      as [H|(H & Hclick & Hre & Hacc & Hin)]; [congruence|].
    do 3 (split; [assumption|]). split.
    + do 3 (apply in_or_app; right). apply in_or_app. now left.
    + intros body Hbody.
      assert (Hmain : In (markdown_html body) (trace (main lower env w)))
        by (rewrite (main_with_client lower env cl w Hget); exact Hbody).
      apply (main_html lower env cl w body Hget) in Hmain as (Hv & _).
      congruence.
Qed.

Lemma main_reruns_only_after_success_witness :
  outcome (main ascii_lower (ready (answering (Some (lit "[바]\n[다]"))))
             (regenerating (lit "바다")))
  = Halt Rerun
  /\ In (success SUCCESS)
        (trace (main ascii_lower (ready (answering (Some (lit "[바]\n[다]"))))
                  (regenerating (lit "바다")))).
Proof.
  assert (Hrerun :
            outcome (main ascii_lower
                       (ready (answering (Some (lit "[바]\n[다]"))))
                       (regenerating (lit "바다")))
            = Halt Rerun) by (vm_compute; reflexivity).
  split; [exact Hrerun|].
  exact (proj1 (proj2 (proj2 (proj2
           (main_reruns_only_after_success ascii_lower
              (ready (answering (Some (lit "[바]\n[다]"))))
              (regenerating (lit "바다")) Hrerun))))).
Defined.

(** X6: the footer is shown exactly in the runs that reach the end of the
    script: its HTML is in the trace if and only if [main] returns. *)
Theorem main_footer_iff_finished
    (lower : str -> str) (env : environment) (w : widgets) :
  In (markdown_html (lit "<div style='text-align: center; color: #666;'>Powered by Google Gemini AI</div>"))
     (trace (main lower env w))
  <-> outcome (main lower env w) = Value tt.
Proof.
  destruct (get_gemini_client_cases env)
    as [Hkey|[(key & msg & Hkey & Hne & Hcl)|(key & cl & _ & _ & _ & Hget)]].
  - rewrite (main_no_key lower env w Hkey). cbn [trace outcome fst snd].
    split; [|discriminate]. intros H.
    repeat (destruct H as [H|H]; [discriminate|]). contradiction.
  - rewrite (main_construction_fails lower env w key msg Hkey Hne Hcl).
    cbn [trace outcome fst snd]. split; [|discriminate]. intros H.
    repeat (destruct H as [H|H]; [discriminate|]). contradiction.
  - split.
    + intros H. apply (main_html lower env cl w _ Hget) in H as (Hv & _).
      now rewrite (main_with_client lower env cl w Hget).
    + rewrite (main_with_client lower env cl w Hget).
      cbn [trace outcome fst snd]. intros ->.
      do 4 (apply in_or_app; right). right. now left.
Qed.

(** X7: a run of the page makes at most one request to the generation
    API: nothing is retried. *)
Theorem main_at_most_one_request
    (lower : str -> str) (env : environment) (w : widgets) :
  (List.length (requests (trace (main lower env w))) <= 1)%nat.
Proof.
  destruct (get_gemini_client_cases env)
    as [Hkey|[(key & msg & Hkey & Hne & Hcl)|(key & cl & _ & _ & _ & Hget)]].
  - rewrite (main_no_key lower env w Hkey). cbn. lia.
  - rewrite (main_construction_fails lower env w key msg Hkey Hne Hcl).
    cbn. lia.
  - rewrite (main_requests lower env cl w Hget).
    destruct (submit_requests lower cl w) as (Hone & Hnone).
    destruct (generate_button w) eqn:Hclick;
      [|rewrite Hnone by (now left); cbn; lia].
    destruct (rejection_or_accepted (user_input w)) as [Hacc|(m & Hrej)].
    + rewrite (Hone eq_refl Hacc). cbn. lia.
    + rewrite Hnone; [cbn; lia|].
      right. now apply rejection_not_accepted with (m := m).
Qed.

(** X8: with a client at hand, a click on an accepted word does make the
    request: the run has exactly one, for the fixed model, with the prompt
    of the stripped word. *)
Theorem main_requests_for_accepted_word
    (lower : str -> str) (env : environment) (cl : client) (w : widgets)
    (Hclient : outcome (get_gemini_client env) = Value cl)
    (Hclick : generate_button w = true)
    (Haccepted : accepted (user_input w)) :
  requests (trace (main lower env w))
  = [generate_content MODEL (build_prompt (strip (user_input w)))].
Proof.
  rewrite (main_requests lower env cl w (get_gemini_client_value env cl Hclient)).
  now apply (proj1 (submit_requests lower cl w)).
Qed.

Lemma main_requests_for_accepted_word_witness :
  requests (trace (main ascii_lower (ready (failing (lit "timeout")))
                     (submitted (lit " 바다 "))))
  = [generate_content MODEL (build_prompt (strip (lit " 바다 ")))].
Proof.
  assert (Hclient : outcome (get_gemini_client (ready (failing (lit "timeout"))))
                    = Value (failing (lit "timeout")))
    by (vm_compute; reflexivity).
  assert (Haccepted : accepted (lit " 바다 ")).
  { split; [vm_compute; reflexivity|vm_compute; lia]. }
  exact (main_requests_for_accepted_word ascii_lower
           (ready (failing (lit "timeout"))) (failing (lit "timeout"))
           (submitted (lit " 바다 ")) Hclient eq_refl Haccepted).
Defined.

(** X9: on a run without a click (the page is loaded, or text is typed) the
    page is its head, the form, the inline validation and the footer:
    nothing is generated and no error banner is shown. *)
Theorem main_without_click
    (lower : str -> str) (env : environment) (cl : client) (w : widgets)
    (Hclient : outcome (get_gemini_client env) = Value cl)
    (Hidle : generate_button w = false) :
  main lower env w
  = (page_head ++ input_section
       ++ trace (display_input_validation w) ++ page_foot,
     Value tt).
Proof.
  rewrite (main_with_client lower env cl w
             (get_gemini_client_value env cl Hclient)).
  now rewrite (submit_not_clicked lower cl w Hidle).
Qed.

Lemma main_without_click_witness :
  main ascii_lower (ready (answering None)) (typed (lit "abc"))
  = (page_head ++ input_section
       ++ [warning (lit "⚠️ 한국어 단어를 입력해주세요.")] ++ page_foot,
     Value tt).
Proof.
  assert (Hclient : outcome (get_gemini_client (ready (answering None)))
                    = Value (answering None))
    by (vm_compute; reflexivity).
  rewrite (main_without_click ascii_lower (ready (answering None))
             (answering None) (typed (lit "abc")) Hclient eq_refl).
  vm_compute. reflexivity.
Defined.

(** *** Rejected inputs *)

(** X10: a click on an input that is empty or only whitespace shows
    "단어를 입력해주세요." and generates nothing.  The inline validation
    shows nothing for the empty input, and the not-Korean warning for a
    whitespace-only one. *)
Theorem submit_blank_input
    (lower : str -> str) (cl : client) (w : widgets)
    (Hclick : generate_button w = true)
    (Hblank : strip (user_input w) = []) :
  submit lower cl w = ([error (lit "단어를 입력해주세요.")], Value tt)
  /\ (user_input w = [] -> display_input_validation w = ([], Value tt))
  /\ (user_input w <> [] ->
      display_input_validation w
      = ([warning (lit "⚠️ 한국어 단어를 입력해주세요.")], Value tt)).
Proof.
  split; [|split].
  - apply submit_rejected; [exact Hclick|]. now apply blank.
  - apply display_input_validation_empty.
  - intros Hne. now apply display_input_validation_blank.
Qed.

Lemma submit_blank_input_witness :
  submit ascii_lower (answering None) (submitted (lit "  \n "))
  = ([error (lit "단어를 입력해주세요.")], Value tt).
Proof.
  apply (submit_blank_input ascii_lower (answering None)
           (submitted (lit "  \n ")) eq_refl).
  vm_compute. reflexivity.
Defined.

(** X11: a click on a non-blank input without any Hangul syllable shows
    "한국어 단어를 입력해주세요." and generates nothing; the inline validation
    shows the same message as a warning. *)
Theorem submit_not_korean
    (lower : str -> str) (cl : client) (w : widgets)
    (Hclick : generate_button w = true)
    (Hnonblank : strip (user_input w) <> [])
    (Hforeign : forall c, In c (user_input w) -> ~ hangul c) :
  submit lower cl w = ([error (lit "한국어 단어를 입력해주세요.")], Value tt)
  /\ display_input_validation w
     = ([warning (lit "⚠️ 한국어 단어를 입력해주세요.")], Value tt).
Proof.
  assert (Hval : validate_korean_input (user_input w) = false).
  { destruct (validate_korean_input (user_input w)) eqn:E; [|reflexivity].
    apply validate_korean_input_spec in E as (c & Hin & Hc).
    now destruct (Hforeign c Hin). }
  assert (Hrej : rejection (user_input w) (lit "한국어 단어를 입력해주세요."))
    by now apply not_korean.
  split.
  - now apply submit_rejected.
  - rewrite (display_input_validation_rejected w _ Hnonblank Hrej).
    replace (lit "⚠️ " ++ lit "한국어 단어를 입력해주세요.")
      with (lit "⚠️ 한국어 단어를 입력해주세요.") by (vm_compute; reflexivity).
    reflexivity.
Qed.

Lemma submit_not_korean_witness :
  submit ascii_lower (answering None) (submitted (lit "sea"))
  = ([error (lit "한국어 단어를 입력해주세요.")], Value tt).
Proof.
  apply (submit_not_korean ascii_lower (answering None)
           (submitted (lit "sea")) eq_refl).
  - vm_compute. discriminate.
  - cbn [user_input submitted]. no_hangul.
Defined.

(** X12: the inline validation is silent exactly for the empty input and
    for the accepted words (a Hangul syllable, 2 to 10 characters after
    stripping); every other input gets a warning. *)
Theorem inline_validation_silent_iff (w : widgets) :
  trace (display_input_validation w) = []
  <-> (user_input w = [] \/ accepted (user_input w)).
Proof.
  split.
  - intros Hsilent.
    destruct (user_input w) as [|c r] eqn:Hinput; [now left|].
    assert (Hne : user_input w <> []) by (rewrite Hinput; discriminate).
    rewrite <- Hinput. clear Hinput.
    destruct (strip (user_input w)) as [|c' r'] eqn:Hs.
    { rewrite (display_input_validation_blank w Hne Hs) in Hsilent.
      discriminate. }
    assert (Hnb : strip (user_input w) <> []) by (rewrite Hs; discriminate).
    destruct (rejection_or_accepted (user_input w)) as [Hacc|(m & Hrej)];
      [now right|].
    rewrite (display_input_validation_rejected w m Hnb Hrej) in Hsilent.
    discriminate.
  - intros [Hempty|Hacc].
    + now rewrite display_input_validation_empty.
    + now rewrite display_input_validation_accepted.
Qed.

(** X13: for a non-blank input, the warning shown while typing and the
    error shown after a click agree: the click shows an error with message
    [m] exactly when the inline validation warns with "⚠️ " followed by
    [m]. *)
Theorem inline_warning_matches_submit_error
    (lower : str -> str) (cl : client) (w : widgets) (m : str)
    (Hclick : generate_button w = true)
    (Hnonblank : strip (user_input w) <> []) :
  submit lower cl w = ([error m], Value tt)
  <-> display_input_validation w = ([warning (lit "⚠️ " ++ m)], Value tt).
Proof.
  destruct (rejection_or_accepted (user_input w)) as [Hacc|(m0 & Hrej)].
  - destruct (submit_accepted_eq lower cl w Hclick Hacc) as (poetry & _ & ->).
    rewrite (display_input_validation_accepted w Hacc).
    split; intros H; discriminate H.
  - rewrite (submit_rejected lower cl w m0 Hclick Hrej).
    rewrite (display_input_validation_rejected w m0 Hnonblank Hrej).
    split; intros H.
    + now injection H as ->.
    + assert (Hwarn : forall a b : str,
                 ([warning a], @Value unit tt) = ([warning b], Value tt) ->
                 a = b) by (intros a b [= ->]; reflexivity).
      apply Hwarn, app_inv_head in H. now subst.
Qed.

Lemma inline_warning_matches_submit_error_witness :
  display_input_validation (submitted (lit "바"))
  = ([warning (lit "⚠️ " ++ lit "2자 이상의 단어를 입력해주세요.")], Value tt).
Proof.
  assert (Hnonblank : strip (user_input (submitted (lit "바"))) <> [])
    by (vm_compute; discriminate).
  apply (proj1 (inline_warning_matches_submit_error ascii_lower
                  (answering None) (submitted (lit "바"))
                  (lit "2자 이상의 단어를 입력해주세요.") eq_refl Hnonblank)).
  vm_compute. reflexivity.
Defined.

(** *** The result area *)

(** X14: the display shows exactly one banner.  A result that is empty or
    begins with one of the two failure prefixes gives the error banner and
    nothing else; every other result gives the success banner and no error
    banner. *)
Theorem display_poetry_one_banner (w : widgets) (poetry : str) :
  (failure_text poetry
   /\ display_poetry w poetry = ([error poetry], Value tt))
  \/ (~ failure_text poetry
      /\ In (success SUCCESS) (trace (display_poetry w poetry))
      /\ forall body, ~ In (error body) (trace (display_poetry w poetry))).
Proof.
  destruct (failure_text_dec poetry) as [Hf|Hs].
  - left. split; [exact Hf|]. now apply display_poetry_failure.
  - right. split; [exact Hs|].
    rewrite (display_poetry_success w poetry Hs). cbn [trace fst]. split.
    + apply in_or_app. right. right. now left.
    + intros body H. apply in_app_or in H as [H|H].
      * apply in_map_iff in H as (line & Hline & _). discriminate.
      * repeat (destruct H as [H|H]; [discriminate|]). exact H.
Qed.

(** X15: a response whose text is not empty but only whitespace is
    stripped to the empty string, and the page then shows an error banner
    with no text. *)
Theorem whitespace_response_shows_empty_error
    (lower : str -> str) (word : str) (cl : client) (r : response)
    (t : str) (w : widgets)
    (Hreturn : cl MODEL (build_prompt word) = Returns r)
    (Htext : text r = Some t)
    (Hnonempty : t <> [])
    (Hblank : strip t = []) :
  (poetry <- generate_korean_poetry lower word cl ;;
   display_poetry w poetry)%script
  = ([generate_content MODEL (build_prompt word); error []], Value tt).
Proof.
  rewrite generate_korean_poetry_eq, Hreturn, Htext.
  destruct t as [|c t]; [contradiction|]. rewrite Hblank.
  reflexivity.
Qed.

Lemma whitespace_response_shows_empty_error_witness :
  (poetry <- generate_korean_poetry ascii_lower (lit "바다")
               (answering (Some (lit " \n "))) ;;
   display_poetry (submitted (lit "바다")) poetry)%script
  = ([generate_content MODEL (build_prompt (lit "바다")); error []], Value tt).
Proof.
  apply (whitespace_response_shows_empty_error ascii_lower (lit "바다")
           (answering (Some (lit " \n "))) {| text := Some (lit " \n ") |}
           (lit " \n ") (submitted (lit "바다")) eq_refl eq_refl).
  - vm_compute. discriminate.
  - vm_compute. reflexivity.
Defined.

(** X16: an exception whose lowercased message contains neither "ascii"
    nor "codec" reaches the user as an error banner: generating and then
    displaying shows "API 오류가 발생했습니다: " followed by the raw message,
    and no success banner. *)
Theorem generic_api_error_displayed
    (lower : str -> str) (word : str) (cl : client) (msg : str) (w : widgets)
    (Hraise : cl MODEL (build_prompt word) = Raises msg)
    (Hgeneric : ~ (substring (lit "ascii") (lower msg)
                   \/ substring (lit "codec") (lower msg))) :
  (poetry <- generate_korean_poetry lower word cl ;;
   display_poetry w poetry)%script
  = ([generate_content MODEL (build_prompt word); error (API_ERROR ++ msg)],
     Value tt).
Proof.
  rewrite generate_korean_poetry_eq, Hraise.
  rewrite <- !contains_iff, <- orb_true_iff in Hgeneric.
  apply not_true_is_false in Hgeneric. rewrite Hgeneric.
  assert (Hf : failure_text (API_ERROR ++ msg)).
  { right; right. exists (lit "가 발생했습니다: " ++ msg).
    rewrite app_assoc.
    replace (lit "API 오류" ++ lit "가 발생했습니다: ") with API_ERROR
      by (vm_compute; reflexivity).
    reflexivity. }
  cbv [bind]. rewrite (display_poetry_failure w _ Hf). reflexivity.
Qed.

Lemma generic_api_error_displayed_witness :
  (poetry <- generate_korean_poetry ascii_lower (lit "바다")
               (failing (lit "503 UNAVAILABLE")) ;;
   display_poetry (submitted (lit "바다")) poetry)%script
  = ([generate_content MODEL (build_prompt (lit "바다"));
      error (API_ERROR ++ lit "503 UNAVAILABLE")],
     Value tt).
Proof.
  apply (generic_api_error_displayed ascii_lower (lit "바다")
           (failing (lit "503 UNAVAILABLE")) (lit "503 UNAVAILABLE")
           (submitted (lit "바다")) eq_refl).
  intros [H|H]; apply contains_iff in H; vm_compute in H; discriminate.
Defined.

(** X17: every Markdown text the display shows is either the rule "---" or
    a poem line: a line of the result between two line breaks, stripped, in
    bold; the stripped line is not empty and holds no line break. *)
Theorem displayed_lines_are_clean (w : widgets) (poetry body : str)
    (Hshown : In (markdown body) (trace (display_poetry w poetry))) :
  body = lit "---"
  \/ exists line,
       In line (split 10 poetry)
       /\ body = lit "**" ++ strip line ++ lit "**"
       /\ strip line <> []
       /\ ~ In 10 (strip line).
Proof.
  destruct (failure_text_dec poetry) as [Hf|Hs].
  - rewrite (display_poetry_failure w poetry Hf) in Hshown.
    destruct Hshown as [H|[]]. discriminate.
  - rewrite (display_poetry_success w poetry Hs) in Hshown.
    cbn [trace fst] in Hshown. apply in_app_or in Hshown as [H|H].
    + right. apply in_map_iff in H as (line & Hline & Hin).
      apply filter_In in Hin as (Hin & Hnb).
      exists line. split; [exact Hin|]. split; [|split].
      * unfold poem_line in Hline. now injection Hline as <-.
      * now apply truthy_iff.
      * intros Hnl. apply strip_incl in Hnl.
        now apply (split_no_sep 10 poetry line Hin).
    + left. destruct H as [H|[H|[H|[]]]]; try discriminate.
      now injection H as <-.
Qed.

Lemma displayed_lines_are_clean_witness :
  lit "**[바]람**" = lit "---"
  \/ exists line,
       In line (split 10 (lit " [바]람 \n\n[다]정"))
       /\ lit "**[바]람**" = lit "**" ++ strip line ++ lit "**"
       /\ strip line <> []
       /\ ~ In 10 (strip line).
Proof.
  apply (displayed_lines_are_clean (submitted (lit "바다"))
           (lit " [바]람 \n\n[다]정") (lit "**[바]람**")).
  in_list.
Defined.

(** X18: on an accepted word and a response whose stripped text is a poem
    (not empty, without a failure prefix), a click shows, in this order: the
    spinner, the request, the result heading with the stripped word as
    "주제어", the non-blank lines of the stripped text in bold, the rule, the
    success banner and the regenerate button; the run ends normally unless
    that button reports a click. *)
Theorem submit_shows_poem
    (lower : str -> str) (cl : client) (w : widgets) (r : response) (t : str)
    (Hclick : generate_button w = true)
    (Haccepted : accepted (user_input w))
    (Hreturn : cl MODEL (build_prompt (strip (user_input w))) = Returns r)
    (Htext : text r = Some t)
    (Hpoem : ~ failure_text (strip t)) :
  submit lower cl w
  = (result_head (strip (user_input w))
       ++ map poem_line (filter nonblank (split 10 (strip t)))
       ++ [markdown (lit "---"); success SUCCESS; button REGENERATE],
     if regenerate_button w then Halt Rerun else Value tt).
Proof.
  destruct (submit_accepted_eq lower cl w Hclick Haccepted)
    as (poetry & Hgen & ->).
  rewrite generate_korean_poetry_eq, Hreturn, Htext in Hgen.
  apply (f_equal outcome) in Hgen. cbn [outcome snd] in Hgen.
  destruct t as [|c t]; [exfalso; apply Hpoem; now left|].
  assert (Hpoetry : poetry = strip (c :: t)) by congruence.
  rewrite Hpoetry, (display_poetry_success w _ Hpoem). reflexivity.
Qed.

Lemma submit_shows_poem_witness :
  outcome (submit ascii_lower (answering (Some (lit " [바]람\n[다]정 ")))
             (submitted (lit " 바다 ")))
  = Value tt.
Proof.
  assert (Haccepted : accepted (user_input (submitted (lit " 바다 ")))).
  { split; [vm_compute; reflexivity|vm_compute; lia]. }
  assert (Hpoem : ~ failure_text (strip (lit " [바]람\n[다]정 "))).
  { apply (proj1 (not_iff_compat (failure_text_iff _))).
    vm_compute. discriminate. }
  rewrite (submit_shows_poem ascii_lower
             (answering (Some (lit " [바]람\n[다]정 ")))
             (submitted (lit " 바다 "))
             {| text := Some (lit " [바]람\n[다]정 ") |}
             (lit " [바]람\n[다]정 ") eq_refl Haccepted eq_refl eq_refl Hpoem).
  reflexivity.
Defined.

(** *** Stripping and validation *)

(** X19: what [strip] returns is the string without the whitespace at its
    two ends: the string is whitespace, the stripped string, whitespace;
    and the stripped string neither begins nor ends with whitespace. *)
Theorem strip_removes_surrounding_whitespace (s : str) :
  (exists a b,
      s = a ++ strip s ++ b
      /\ forallb isspace a = true /\ forallb isspace b = true)
  /\ (forall c r, strip s = c :: r -> isspace c = false)
  /\ (forall r c, strip s = r ++ [c] -> isspace c = false).
Proof.
  split; [apply strip_decompose|]. split.
  - apply strip_head.
  - apply strip_last.
Qed.

(** X20: validation does not depend on the whitespace around the input:
    [main] validates the raw input and measures the stripped one, and the
    validator gives the same answer on both. *)
Theorem validate_korean_input_strip (text : str) :
  validate_korean_input (strip text) = validate_korean_input text.
Proof.
  pose proof (validate_korean_input_spec text) as Hraw.
  pose proof (validate_korean_input_spec (strip text)) as Hstripped.
  rewrite hangul_strip_iff in Hstripped.
  destruct (validate_korean_input text);
    destruct (validate_korean_input (strip text)); try reflexivity.
  - apply Hstripped, Hraw. reflexivity.
  - symmetry. apply Hraw, Hstripped. reflexivity.
Qed.

(** X21: the test for an encoding problem ignores the letter case of ASCII
    text: when the runtime lowercases the message as ASCII text does, a
    message holding "ascii" or "codec" in any mix of upper and lower case
    gives the encoding-error message. *)
Theorem encoding_error_in_any_case
    (lower : str -> str) (word : str) (cl : client)
    (msg before found after : str)
    (Hraise : cl MODEL (build_prompt word) = Raises msg)
    (Hlower : lower msg = ascii_lower msg)
    (Hfound : msg = before ++ found ++ after)
    (Hcase : same_up_to_ascii_case found (lit "ascii")
             \/ same_up_to_ascii_case found (lit "codec")) :
  outcome (generate_korean_poetry lower word cl) = Value ENCODING_ERROR.
Proof.
  rewrite generate_korean_poetry_eq, Hraise. cbn [outcome snd].
  assert (Hsub : contains (lit "ascii") (lower msg)
                 || contains (lit "codec") (lower msg) = true).
  { rewrite Hlower, Hfound, !ascii_lower_app.
    apply orb_true_iff. unfold same_up_to_ascii_case in Hcase.
    replace (ascii_lower (lit "ascii")) with (lit "ascii") in Hcase
      by (vm_compute; reflexivity).
    replace (ascii_lower (lit "codec")) with (lit "codec") in Hcase
      by (vm_compute; reflexivity).
    destruct Hcase as [Hc|Hc]; [left|right]; apply contains_iff;
      exists (ascii_lower before), (ascii_lower after); now rewrite Hc. }
  now rewrite Hsub.
Qed.

Lemma encoding_error_in_any_case_witness :
  outcome (generate_korean_poetry ascii_lower (lit "바다")
             (failing (lit "Unsupported CoDec: h264")))
  = Value ENCODING_ERROR.
Proof.
  apply (encoding_error_in_any_case ascii_lower (lit "바다")
           (failing (lit "Unsupported CoDec: h264"))
           (lit "Unsupported CoDec: h264")
           (lit "Unsupported ") (lit "CoDec") (lit ": h264")
           eq_refl eq_refl).
  - vm_compute. reflexivity.
  - right. vm_compute. reflexivity.
Defined.
